(** * Verification of the Kokoro TTS HTTP wrapper (app/main.py)

    A shallow embedding of the request lifecycle of [app/main.py]:
    text validation, the engine availability check, the offloaded synthesis
    call with its timeout and retry, the artifact file and its cleanup.

    Python values are modelled as the code has them: a [str] that is
    stripped and measured is a list of Unicode code points, file names are
    strings, the scratch directory is a finite map from file names to nodes,
    exceptions are an inductive type, and the handler runs in a small
    state-and-exception monad over the part of the process state the code
    touches (files, log, calls made to the engine and to the audio codec). *)

From Stdlib Require Import ZArith NArith QArith List Bool Ascii String Lia.
From Stdlib Require Import DecimalString DecimalZ DecimalPos.
From stdpp Require Import base option list strings gmap fin_maps.

Local Open Scope Z_scope.
Local Open Scope string_scope.
Local Open Scope list_scope.

(** ** Configuration (main.py, lines 29-34) *)

Definition MAX_TEXT_LENGTH : Z := 3000.
Definition AUDIO_SR : Z := 24000.
Definition DEFAULT_VOICE : string := "af_heart".
Definition DEFAULT_LANG : string := "f".
Definition PIPELINE_TIMEOUT : Z := 60.
Definition FILE_CLEANUP_DELAY : Z := 300.

(** ** Python values *)

(** A Python [str] as the sequence of its code points: [len] counts code
    points and [strip] removes the code points for which [str.isspace]
    holds. *)
Definition pystr := list N.

(** Sample buffer of a numpy array; the handler only passes it on. *)
Definition ndarray := list Q.

(** The event loop object [asyncio.get_event_loop()] returns. *)
Inductive loop_obj := EventLoop (ident : N).

(** The values that flow through the handler's untyped variables. *)
Inductive pyval :=
| PNone
| PStr (s : string)
| PArray (a : ndarray)
| PLoop (l : loop_obj).

(** What the engine's generator yields: [None] or a tuple of fields. *)
Inductive item :=
| ItemNone
| ItemTuple (fields : list pyval).

(** Exceptions. [TimeoutError] is [asyncio.TimeoutError]; [HTTPException]
    carries the status code and the detail message. *)
Inductive exn :=
| TimeoutError
| RuntimeError (msg : string)
| ValueError (msg : string)
| TypeError (msg : string)
| OSError (msg : string)
| EngineError (msg : string)
| HTTPException (status_code : Z) (detail : string).

Inductive result (A : Type) :=
| Ok (a : A)
| Raise (e : exn).
Arguments Ok {A} a.
Arguments Raise {A} e.

(** ** Pydantic models (main.py, lines 67-76) *)

Record TTSRequest := {
  text : pystr;
  voice : option string;
  lang : option string;
  speed : option Q
}.

Record ResponseData := {
  filename : pyval;
  download_url : string
}.

Record APIResponse := {
  success : bool;
  message : string;
  data : option ResponseData
}.

(** ** Process state *)

(** A node of the scratch directory: a regular file or a directory. *)
Inductive content :=
| Wav (samplerate : Z) (samples : ndarray)
| Truncated.

Inductive node :=
| File (c : content)
| Dir.

Inductive level := DEBUG | INFO | WARNING | ERROR.

(** Calls that leave the handler: to the engine and to the codec. *)
Inductive call :=
| CInit (lang_code : string)
| CPipeline (txt : pystr) (voice_name : string) (spd : option Q)
| CNext (i : nat)
| CWrite (path : string) (samplerate : Z).

Record World := {
  fs : gmap string node;
  log : list (level * string);
  calls : list call
}.

(** ** The state-and-exception monad *)

Definition M (A : Type) : Type := World -> result A * World.

Definition ret {A} (a : A) : M A := fun w => (Ok a, w).
Definition raise {A} (e : exn) : M A := fun w => (Raise e, w).
Definition bind {A B} (m : M A) (k : A -> M B) : M B :=
  fun w => match m w with
           | (Ok a, w') => k a w'
           | (Raise e, w') => (Raise e, w')
           end.

(** [try: body / except Exception as e: handler e]. *)
Definition try_except {A} (body : M A) (handler : exn -> M A) : M A :=
  fun w => match body w with
           | (Ok a, w') => (Ok a, w')
           | (Raise e, w') => handler e w'
           end.

Declare Scope py_scope.
Delimit Scope py_scope with py.
Notation "x <- m ;; k" := (bind m (fun x => k))
  (at level 100, m at next level, right associativity) : py_scope.
Notation "m ;;; k" := (bind m (fun _ => k))
  (at level 100, right associativity) : py_scope.
Local Open Scope py_scope.

Definition logger (lv : level) (msg : string) : M unit :=
  fun w => (Ok tt, {| fs := fs w; log := log w ++ [(lv, msg)]; calls := calls w |}).

Definition record_call (c : call) : M unit :=
  fun w => (Ok tt, {| fs := fs w; log := log w; calls := calls w ++ [c] |}).


(** ** Strings *)

(** [str.isspace] on one code point, the table CPython's [str.strip] uses. *)
Definition isspace (c : N) : bool :=
  (((9 <=? c) && (c <=? 13)) || ((28 <=? c) && (c <=? 32))
   || (c =? 133) || (c =? 160) || (c =? 5760)
   || ((8192 <=? c) && (c <=? 8202))
   || (c =? 8232) || (c =? 8233) || (c =? 8239) || (c =? 8287)
   || (c =? 12288))%N.

Fixpoint lstrip (s : pystr) : pystr :=
  match s with
  | [] => []
  | c :: r => if isspace c then lstrip r else s
  end.

Definition rstrip (s : pystr) : pystr := rev (lstrip (rev s)).

Definition strip (s : pystr) : pystr := rstrip (lstrip s).

(** [len(s)] as a Python integer. *)
Definition len {A} (l : list A) : Z := Z.of_nat (length l).

(** [x or y] on strings: the empty string is falsy. *)
Definition str_or (x y : pystr) : pystr :=
  match x with [] => y | _ => x end.

(** [x or y] on an [Optional[str]]: [None] and the empty string are falsy. *)
Definition opt_or (x : option string) (y : string) : string :=
  match x with
  | Some EmptyString | None => y
  | Some s => s
  end.

(** [str(n)] for a Python integer. *)
Definition str_int (n : Z) : string := NilZero.string_of_int (Z.to_int n).

(** [format(v)] inside an f-string. *)
Definition py_format (v : pyval) : string :=
  match v with
  | PNone => "None"
  | PStr s => s
  | PArray _ => "[...]"
  | PLoop _ => "<_UnixSelectorEventLoop running=False closed=False debug=False>"
  end.

(** ** Paths and the scratch directory *)

Record Path := { parent : string; name : string }.

Definition path_str (p : Path) : string := parent p +:+ "/" +:+ name p.

Definition STATIC_DIR : string := "static".

(** [STATIC_DIR / name]. *)
Definition path_join (dir nm : string) : Path := {| parent := dir; name := nm |}.

(** [path.exists()]. *)
Definition path_exists (p : Path) : M bool :=
  fun w => (Ok (bool_decide (is_Some (fs w !! path_str p))), w).

(** [path.unlink()]: removes a regular file; fails on a directory and on a
    missing path. *)
Definition unlink (p : Path) : M unit :=
  fun w => match fs w !! path_str p with
           | Some (File _) =>
               (Ok tt, {| fs := delete (path_str p) (fs w); log := log w; calls := calls w |})
           | Some Dir => (Raise (OSError "Is a directory"), w)
           | None => (Raise (OSError "No such file or directory"), w)
           end.

(** ** The environment of one request *)

(** A generator as the values it yields and the exception that ends it, if
    it does not end with [StopIteration]. *)
Record generator := { yields : list item; fault : option exn }.

(** The engine class [KPipeline]: its constructor may raise; a pipeline
    object called on text, voice and speed returns a generator. *)
Record Engine := {
  engine_init : string -> option exn;
  engine_call : string -> pystr -> string -> option Q -> generator
}.

Record Env := {
  (** [KPipeline], [None] when the import failed at process start *)
  KPipeline : option Engine;
  (** [int(time.time() * 1000)] *)
  time_ms : Z;
  (** the event loop set for the worker thread, if any *)
  worker_loop : option loop_obj;
  (** seconds until the first offloaded thunk completes *)
  thunk_seconds : Q;
  (** seconds until the offloaded synthesis completes *)
  synthesis_seconds : Q;
  (** the failure of [sf.write], if any, and whether it leaves a file *)
  codec_fault : option (exn * bool)
}.

(** ** asyncio *)

(** Work offloaded to a thread: how long it takes and what it does. *)
Record awaitable (A : Type) := { seconds : Q; job : M A }.
Arguments seconds {A} _.
Arguments job {A} _.

Definition to_thread {A} (secs : Q) (f : M A) : awaitable A :=
  {| seconds := secs; job := f |}.

(** [asyncio.wait_for(aw, timeout)]: raises [TimeoutError] when the work
    takes longer than [timeout] seconds; the abandoned thread's effects
    are not seen by the waiting handler. *)
Definition wait_for {A} (aw : awaitable A) (timeout : Z) : awaitable A :=
  {| seconds := seconds aw;
     job := if Qle_bool (seconds aw) (inject_Z timeout) then job aw
            else raise TimeoutError |}.

Definition await {A} (aw : awaitable A) : M A := job aw.

(** [asyncio.run(coro)] and [loop.run_until_complete(coro)] run the
    coroutine to its end. *)
Definition asyncio_run {A} (coro : M A) : M A := coro.
Definition run_until_complete {A} (coro : M A) : M A := coro.

(** [asyncio.get_event_loop()] in a thread that is not running a loop:
    the loop set for the thread, or [RuntimeError]. *)
Definition get_event_loop (env : Env) : M pyval :=
  match worker_loop env with
  | Some l => ret (PLoop l)
  | None => raise (RuntimeError "There is no current event loop in thread")
  end.

(** ** Helpers (main.py, lines 79-93) *)

(** [sf.write(file, data, samplerate)]. *)
Definition sf_write (env : Env) (file : string) (d : pyval) (samplerate : Z) : M unit :=
  record_call (CWrite file samplerate) ;;;
  fun w =>
    match fs w !! file with
    | Some Dir => (Raise (OSError "Is a directory"), w)
    | _ =>
      match codec_fault env with
      | Some (e, partial) =>
          (Raise e,
           if partial
           then {| fs := <[file := File Truncated]> (fs w); log := log w; calls := calls w |}
           else w)
      | None =>
          match d with
          | PArray a =>
              (Ok tt, {| fs := <[file := File (Wav samplerate a)]> (fs w);
                         log := log w; calls := calls w |})
          | _ => (Raise (TypeError "data must be an array"), w)
          end
      end
    end.

Definition write_wav_file (env : Env) (filename : Path) (audio_numpy : pyval)
    (samplerate : Z) : M unit :=
  sf_write env (path_str filename) audio_numpy samplerate.

Definition safe_filename (ts : Z) : string := "kokoro_" +:+ str_int ts +:+ ".wav".

Definition cleanup_file (path : Path) : M unit :=
  try_except
    (ex <- path_exists path ;;
     if ex
     then unlink path ;;; logger INFO "Supprime fichier temporaire: %s"
     else ret tt)
    (fun e => logger WARNING "Erreur suppression fichier %s : %s").

(** ** The endpoint POST /tts (main.py, lines 104-197) *)

(** [not item]: [None] and the empty tuple are falsy. *)
Definition item_not (it : item) : bool :=
  match it with
  | ItemNone | ItemTuple [] => true
  | ItemTuple (_ :: _) => false
  end.

(** [len(item)]; evaluated only on a truthy item, hence on a tuple. *)
Definition item_len (it : item) : Z :=
  match it with
  | ItemNone => 0
  | ItemTuple fields => len fields
  end.

(** [gs, ps, audio = item]: the third value, or [ValueError] when the
    item does not have exactly three values. *)
Definition unpack3 (it : item) : M pyval :=
  match it with
  | ItemTuple [gs; ps; audio] => ret audio
  | ItemTuple (_ :: _ :: _ :: _ :: _) =>
      raise (ValueError "too many values to unpack (expected 3)")
  | _ => raise (ValueError "not enough values to unpack (expected 3)")
  end.

(** The body of [for i, item in enumerate(gen)] over the values the
    generator yields, from index [i] with the current [last_audio]. *)
Fixpoint for_items (i : nat) (items : list item) (last_audio : pyval) : M pyval :=
  match items with
  | [] => ret last_audio
  | it :: rest =>
      record_call (CNext i) ;;;
      if item_not it || (item_len it <? 3)%Z
      then for_items (S i) rest last_audio
      else (audio <- unpack3 it ;; for_items (S i) rest audio)
  end.

(** The whole loop: the yielded values, then the generator's end. *)
Definition for_gen (gen : generator) (last_audio : pyval) : M pyval :=
  last <- for_items 0 (yields gen) last_audio ;;
  match fault gen with
  | Some e => raise e
  | None => ret last
  end.

Section Request.

Variable env : Env.
Variable engine : Engine.
Variable payload : TTSRequest.
(** the handler's locals that the inner function closes over *)
Variables (txt : pystr) (voice_name lang_code : string) (out_path : Path).

(** [KPipeline(lang_code=lang)]. *)
Definition new_pipeline : M unit :=
  record_call (CInit lang_code) ;;;
  match engine_init engine lang_code with
  | Some e => raise e
  | None => ret tt
  end.

(** [pipeline(text, voice=voice, speed=payload.speed)]. *)
Definition call_pipeline : M generator :=
  record_call (CPipeline txt voice_name (speed payload)) ;;;
  ret (engine_call engine lang_code txt voice_name (speed payload)).

(** The second [try] block of [run_pipeline_and_write], lines 139-156. *)
Definition generate : M string :=
  gen <- call_pipeline ;;
  last_audio <- for_gen gen PNone ;;
  match last_audio with
  | PNone =>
      logger ERROR "Pipeline n'a retourné aucun audio." ;;;
      raise (RuntimeError "Aucune sortie audio produite par le modèle.")
  | _ =>
      write_wav_file env out_path last_audio AUDIO_SR ;;;
      logger INFO "Fichier audio généré: %s" ;;;
      ret (name out_path)
  end.

(** Its [except Exception] handler, lines 157-165. *)
Definition generate_failed (e : exn) : M string :=
  logger ERROR "Erreur pendant génération TTS: %s" ;;;
  ex <- path_exists out_path ;;
  (if ex then try_except (unlink out_path) (fun _ => ret tt) else ret tt) ;;;
  raise e.

Definition run_pipeline_and_write : M string :=
  try_except new_pipeline
    (fun e =>
       logger ERROR "Erreur initialisation KPipeline: %s" ;;;
       raise (RuntimeError "Erreur d'initialisation du moteur TTS.")) ;;;
  try_except generate generate_failed.

(** The thunk of the first attempt, line 169:
    [asyncio.run(run_pipeline_and_write()) if False else asyncio.get_event_loop()]. *)
Definition first_thunk : M pyval :=
  if false
  then (f <- asyncio_run run_pipeline_and_write ;; ret (PStr f))
  else get_event_loop env.

(** The retry, lines 176-179. *)
Definition sync_wrapper : M pyval :=
  f <- run_until_complete run_pipeline_and_write ;; ret (PStr f).

(** The awaited expression of line 169. *)
Definition first_attempt : M pyval :=
  await (wait_for (to_thread (thunk_seconds env) first_thunk) PIPELINE_TIMEOUT).

(** The awaited expression of line 179. *)
Definition retry : M pyval :=
  await (to_thread (synthesis_seconds env) sync_wrapper).

(** The [except] clauses of the retry, lines 180-185. *)
Definition retry_failed (e_inner : exn) : M pyval :=
  match e_inner with
  | TimeoutError =>
      logger ERROR "Timeout lors de l'appel au pipeline TTS (retry)." ;;;
      raise (HTTPException 504 "Génération TTS trop longue (timeout).")
  | _ =>
      logger ERROR "Échec génération TTS après tentative: %s" ;;;
      raise (HTTPException 500 "Erreur interne lors de la génération TTS.")
  end.

(** The [except] clauses of the first attempt, lines 170-185. *)
Definition first_failed (e : exn) : M pyval :=
  match e with
  | TimeoutError =>
      logger ERROR "Timeout lors de l'appel au pipeline TTS (>%d s)" ;;;
      raise (HTTPException 504 "Génération TTS trop longue (timeout).")
  | _ =>
      logger DEBUG "Retrying pipeline run in to_thread with proper sync wrapper due to earlier failure." ;;;
      try_except retry retry_failed
  end.

(** Step 4 of the handler, lines 167-185. *)
Definition offload : M pyval := try_except first_attempt first_failed.

End Request.

Definition synthesize_tts (env : Env) (payload : TTSRequest) : M APIResponse :=
  let txt := strip (str_or (text payload) []) in
  if bool_decide (txt = [])
  then
    logger WARNING "Requete TTS avec texte vide" ;;;
    raise (HTTPException 422 "Le champ 'text' est requis et ne peut pas être vide.")
  else if (MAX_TEXT_LENGTH <? len txt)%Z
  then
    logger INFO "Texte trop long: %d (> %d)" ;;;
    raise (HTTPException 413
             ("Texte trop long (max " +:+ str_int MAX_TEXT_LENGTH +:+ " caractères)."))
  else
    let voice_name := opt_or (voice payload) DEFAULT_VOICE in
    let lang_code := opt_or (lang payload) DEFAULT_LANG in
    match KPipeline env with
    | None =>
        logger ERROR "KPipeline (kokoro) non disponible: import failed" ;;;
        raise (HTTPException 503
                 "TTS engine not available (kokoro not installed or failed to import).")
    | Some engine =>
        let ts := time_ms env in
        let out_path := path_join STATIC_DIR (safe_filename ts) in
        logger INFO "TTS requested (len=%d, voice=%s, lang=%s). Out: %s" ;;;
        filename <- offload env engine payload txt voice_name lang_code out_path ;;
        let download_url := "/download/" +:+ py_format filename in
        ret {| success := true;
               message := "Audio généré avec succès.";
               data := Some {| filename := filename; download_url := download_url |} |}
    end.

(** The initial state of a request on a given scratch directory. *)
Definition start (files : gmap string node) : World :=
  {| fs := files; log := []; calls := [] |}.

(** ** Words of the specification *)

(** "Empty or whitespace-only" text. *)
Definition whitespace_only (s : pystr) : Prop := Forall (fun c => isspace c = true) s.

(** A well-formed request: its text has a character that is not whitespace
    and is at most [MAX_TEXT_LENGTH] characters long. *)
Definition well_formed (p : TTSRequest) : Prop :=
  ~ whitespace_only (text p) /\ (len (text p) <= MAX_TEXT_LENGTH)%Z.

(** An intermediate item that misses expected fields: [None], or a tuple
    of fewer than three values. *)
Definition missing_fields (it : item) : Prop :=
  match it with
  | ItemNone => True
  | ItemTuple fields => (length fields < 3)%nat
  end.

(** The audio field of an item that has the three expected fields. *)
Definition audio_of (it : item) : option pyval :=
  match it with
  | ItemTuple [gs; ps; audio] => Some audio
  | _ => None
  end.

(** The audio fields a sequence of items produces, oldest first, and the
    most recent of them. *)
Definition produced (items : list item) : list pyval := omap audio_of items.
Definition most_recent (items : list item) : option pyval := last (produced items).

(** A name of the form [kokoro_<digits>.wav]. *)
Definition is_digit (c : ascii) : bool :=
  let n := nat_of_ascii c in ((48 <=? n) && (n <=? 57))%nat.

Fixpoint all_digits (s : string) : bool :=
  match s with
  | EmptyString => true
  | String c r => is_digit c && all_digits r
  end.

Definition kokoro_name (s : string) : Prop :=
  exists digits, digits <> "" /\ all_digits digits = true
                 /\ s = "kokoro_" +:+ digits +:+ ".wav".

(** No regular file at a path. *)
Definition no_file (files : gmap string node) (p : Path) : Prop :=
  forall c, files !! path_str p <> Some (File c).

(** ** Requests and environments used in examples *)

Definition one_triple : generator :=
  {| yields := [ItemTuple [PStr "Hello"; PStr "h@lO"; PArray [1 # 2; -1 # 4]]];
     fault := None |}.

Definition kokoro (gen : generator) : Engine :=
  {| engine_init := fun _ => None;
     engine_call := fun _ _ _ _ => gen |}.

Definition env_of (eng : option Engine) (synth_secs : Q) : Env :=
  {| KPipeline := eng;
     time_ms := 1699999999123;
     worker_loop := None;
     thunk_seconds := 0;
     synthesis_seconds := synth_secs;
     codec_fault := None |}.

(** [{"text": "Hello world"}] with the model's defaults for the rest. *)
Definition hello : TTSRequest :=
  {| text := [72; 101; 108; 108; 111; 32; 119; 111; 114; 108; 100]%N;
     voice := None; lang := Some DEFAULT_LANG; speed := Some 1%Q |}.

Definition request_of (t : pystr) : TTSRequest :=
  {| text := t; voice := None; lang := Some DEFAULT_LANG; speed := Some 1%Q |}.

(** ** Definitions used in the statements *)

(** The detail messages of the three rejections, lines 110, 114 and 122. *)
Definition detail_422 : string := "Le champ 'text' est requis et ne peut pas être vide.".
Definition detail_413 : string :=
  "Texte trop long (max " +:+ str_int MAX_TEXT_LENGTH +:+ " caractères).".
Definition detail_503 : string :=
  "TTS engine not available (kokoro not installed or failed to import).".

(** A rejected request: the handler raises [HTTPException code detail],
    has made no call to the engine or the codec and has left the scratch
    directory as it was. *)
Definition rejected (r : result APIResponse * World) (w : World) (code : Z)
    (detail : string) : Prop :=
  fst r = Raise (HTTPException code detail)
  /\ calls (snd r) = calls w /\ fs (snd r) = fs w.

(** One leading space and 3000 letters: 3001 characters, 3000 once stripped. *)
Definition padded : pystr := 32%N :: repeat 97%N 3000.

(** A state with more calls recorded, or more log entries. *)
Definition add_calls (w : World) (cs : list call) : World :=
  {| fs := fs w; log := log w; calls := calls w ++ cs |}.

Definition add_log (w : World) (entries : list (level * string)) : World :=
  {| fs := fs w; log := log w ++ entries; calls := calls w |}.

(** An item of the engine's contract: one that misses fields, or one that
    has exactly the three expected fields. *)
Definition expected (it : item) : Prop := missing_fields it \/ is_Some (audio_of it).

(** The scratch directory once the regular file at a path, if any, is gone. *)
Definition remove_file (files : gmap string node) (p : Path) : gmap string node :=
  match files !! path_str p with
  | Some (File _) => delete (path_str p) files
  | _ => files
  end.

(** A sequence with malformed items between two complete ones. *)
Definition mixed_items : generator :=
  {| yields := [ItemNone;
                ItemTuple [PStr "Bon"];
                ItemTuple [PStr "Bon"; PStr "bO~"; PArray [1 # 2]];
                ItemTuple [];
                ItemTuple [PStr "jour"; PStr "ZuR"; PArray [1 # 4; 1 # 8]];
                ItemTuple [PStr "!"; PStr "!"]];
     fault := None |}.

(** A sequence in which every item misses fields. *)
Definition only_malformed : generator :=
  {| yields := [ItemNone; ItemTuple [PStr "Bon"; PStr "bO~"]; ItemTuple []];
     fault := None |}.

(** The output path of a request stamped 1699999999123. *)
Definition out_example : Path := path_join STATIC_DIR (safe_filename 1699999999123).

(** An environment whose codec fails after it has created the file. *)
Definition env_disk_full : Env :=
  {| KPipeline := Some (kokoro one_triple);
     time_ms := 1699999999123;
     worker_loop := None;
     thunk_seconds := 0;
     synthesis_seconds := 2;
     codec_fault := Some (OSError "No space left on device", true) |}.

(** The error of line 152. *)
Definition no_audio : exn := RuntimeError "Aucune sortie audio produite par le modèle.".

(** Every value the computation returns satisfies [P]. *)
Definition returns {A} (P : A -> Prop) (m : M A) : Prop :=
  forall w a w', m w = (Ok a, w') -> P a.

(** The same environment with another duration of the synthesis. *)
Definition set_synthesis_seconds (env : Env) (secs : Q) : Env :=
  {| KPipeline := KPipeline env;
     time_ms := time_ms env;
     worker_loop := worker_loop env;
     thunk_seconds := thunk_seconds env;
     synthesis_seconds := secs;
     codec_fault := codec_fault env |}.

(** The log entry of line 174. *)
Definition retrying : level * string :=
  (DEBUG, "Retrying pipeline run in to_thread with proper sync wrapper due to earlier failure.").

(** A synthesis of 61 seconds that succeeds. *)
Definition env_slow : Env := env_of (Some (kokoro one_triple)) 61.

(** A synthesis of one hour that ends with an engine error. *)
Definition failing : generator :=
  {| yields := [ItemTuple [PStr "Hello"; PStr "h@lO"; PArray [1 # 2]]];
     fault := Some (EngineError "CUDA out of memory") |}.

Definition env_slow_failing : Env := env_of (Some (kokoro failing)) 3600.

(** The calls of a run that reaches the end of the sequence. *)
Definition calls_of_run (engine : Engine) (payload : TTSRequest) (txt : pystr)
    (voice_name lang_code : string) : list call :=
  [CInit lang_code; CPipeline txt voice_name (speed payload)]
  ++ map CNext (seq 0 (length (yields (engine_call engine lang_code txt voice_name
                                         (speed payload))))).

(** ** Deferred deletion and the endpoint GET /download
       (main.py, lines 96-100 and 200-213) *)

(** [time.sleep(seconds)]: raises [ValueError] on a negative length;
    otherwise it blocks the calling thread and has no effect on the files,
    the log or the calls. *)
Definition time_sleep (secs : Z) : M unit :=
  if (secs <? 0)%Z
  then raise (ValueError "sleep length must be non-negative")
  else ret tt.

Definition cleanup_file_delayed (path : Path) (delay_seconds : Z) : M unit :=
  logger INFO "Planification suppression de %s dans %d secondes" ;;;
  time_sleep delay_seconds ;;;
  cleanup_file path.

(** [FileResponse(path=..., filename=..., media_type=...)]. *)
Record FileResponse := {
  response_path : string;
  response_filename : string;
  media_type : string
}.

(** A task of [BackgroundTasks]: a call of [cleanup_file_delayed] with its
    arguments, run after the response has been sent. *)
Record task := { task_path : Path; delay_seconds : Z }.

Definition run_task (t : task) : M unit :=
  cleanup_file_delayed (task_path t) (delay_seconds t).

(** [download_file(filename, background_tasks)]; [filename] is the path
    parameter of the route, a single path segment. The task list is passed
    in and returned with the response. *)
Definition download_file (filename : string) (background_tasks : list task)
    : M (FileResponse * list task) :=
  let safe_path := path_join STATIC_DIR filename in
  ex <- path_exists safe_path ;;
  if negb ex
  then
    logger WARNING "Téléchargement demandé pour fichier inexistant: %s" ;;;
    raise (HTTPException 404 "Fichier non trouvé.")
  else
    let background_tasks :=
      background_tasks
      ++ [{| task_path := safe_path; delay_seconds := FILE_CLEANUP_DELAY |}] in
    logger INFO "Serving file %s" ;;;
    ret ({| response_path := path_str safe_path;
            response_filename := filename;
            media_type := "audio/wav" |},
         background_tasks).

(** ** Further words for statements *)

(** Every exception the computation raises satisfies [P]. *)
Definition raises {A} (P : exn -> Prop) (m : M A) : Prop :=
  forall w e w', m w = (Raise e, w') -> P e.

(** The computation changes no path of the scratch directory but [q]. *)
Definition touches_only {A} (q : string) (m : M A) : Prop :=
  forall w p, p <> q -> fs (snd (m w)) !! p = fs w !! p.

(** At [q] the computation leaves what was there or leaves a regular file,
    or nothing. *)
Definition no_new_dir {A} (q : string) (m : M A) : Prop :=
  forall w, fs (snd (m w)) !! q = fs w !! q
            \/ fs (snd (m w)) !! q = None
            \/ exists c, fs (snd (m w)) !! q = Some (File c).

(** The status codes of the handler of POST /tts. *)
Definition http_error (e : exn) : Prop :=
  exists code detail,
    e = HTTPException code detail
    /\ (code = 422 \/ code = 413 \/ code = 503 \/ code = 504 \/ code = 500)%Z.

(** The first offloaded thunk completes within the timeout, in a worker
    thread that has no event loop. *)
Definition first_attempt_fails_fast (env : Env) : Prop :=
  worker_loop env = None
  /\ Qle_bool (thunk_seconds env) (inject_Z PIPELINE_TIMEOUT) = true.

(** The output path of a request served in environment [env]. *)
Definition out_path_of (env : Env) : Path :=
  path_join STATIC_DIR (safe_filename (time_ms env)).

(** The arguments the handler passes on for a request. *)
Definition text_of (p : TTSRequest) : pystr := strip (str_or (text p) []).
Definition voice_of (p : TTSRequest) : string := opt_or (voice p) DEFAULT_VOICE.
Definition lang_of (p : TTSRequest) : string := opt_or (lang p) DEFAULT_LANG.

(** The sequence the engine yields for a request. *)
Definition gen_of (engine : Engine) (p : TTSRequest) : generator :=
  engine_call engine (lang_of p) (text_of p) (voice_of p) (speed p).

(** The calls one request may add: none; the constructor alone; or the
    constructor, one pipeline call, the items asked for in order, and at
    most one write. *)
Definition request_calls (env : Env) (p : TTSRequest) (cs : list call) : Prop :=
  cs = []
  \/ cs = [CInit (lang_of p)]
  \/ exists k wr,
       cs = CInit (lang_of p) :: CPipeline (text_of p) (voice_of p) (speed p)
            :: map CNext (seq 0 k) ++ wr
       /\ (wr = [] \/ wr = [CWrite (path_str (out_path_of env)) AUDIO_SR]).

(** The log entry of line 128 and the response of lines 188-197. *)
Definition requested : level * string :=
  (INFO, "TTS requested (len=%d, voice=%s, lang=%s). Out: %s").

Definition response_for (v : pyval) : APIResponse :=
  {| success := true;
     message := "Audio généré avec succès.";
     data := Some {| filename := v; download_url := "/download/" +:+ py_format v |} |}.

(** The node a [FileResponse] is read from. *)
Definition served (r : FileResponse) (w : World) : option node :=
  fs w !! response_path r.

(** The status with which the retry answers a failure [e] of the synthesis. *)
Definition retry_status (e : exn) : Z :=
  match e with TimeoutError => 504 | _ => 500 end.

(** The request passes both validations of the handler. *)
Definition accepted (p : TTSRequest) : Prop :=
  text_of p <> [] /\ (len (text_of p) <= MAX_TEXT_LENGTH)%Z.

(** The detail message of both 504 answers, lines 172 and 182. *)
Definition gateway_timeout : string := "Génération TTS trop longue (timeout).".

(** A request that waits 75 seconds for a worker thread. *)
Definition env_queued : Env :=
  {| KPipeline := Some (kokoro one_triple);
     time_ms := 1699999999123;
     worker_loop := None;
     thunk_seconds := 75;
     synthesis_seconds := 2;
     codec_fault := None |}.

(** The answer of GET /download for a path that exists, the deferred
    deletion it schedules, and its error for a path that does not. *)
Definition response_of (filename : string) : FileResponse :=
  {| response_path := path_str (path_join STATIC_DIR filename);
     response_filename := filename;
     media_type := "audio/wav" |}.

Definition task_for (filename : string) : task :=
  {| task_path := path_join STATIC_DIR filename; delay_seconds := FILE_CLEANUP_DELAY |}.

Definition not_found : exn := HTTPException 404 "Fichier non trouvé.".

(** An engine whose constructor raises. *)
Definition broken : Engine :=
  {| engine_init := fun _ => Some TimeoutError;
     engine_call := fun _ _ _ _ => one_triple |}.

(** The audio buffer of an item that has its three fields, the third an
    array; the buffers a sequence produces, oldest first, and the most
    recent of them. *)
Definition buffer_of (it : item) : option ndarray :=
  match it with
  | ItemTuple [gs; ps; PArray a] => Some a
  | _ => None
  end.

Definition buffers (items : list item) : list ndarray := omap buffer_of items.
Definition last_buffer (items : list item) : option ndarray := last (buffers items).

(** A complete item with an audio buffer, then a complete item whose audio
    is [None]. *)
Definition none_after_audio : generator :=
  {| yields := [ItemTuple [PStr "Bon"; PStr "bO~"; PArray [1 # 2]];
                ItemTuple [PStr "jour"; PStr "ZuR"; PNone]];
     fault := None |}.

(** A complete item, an item of four values, a complete item. *)
Definition four_values : generator :=
  {| yields := [ItemTuple [PStr "Bon"; PStr "bO~"; PArray [1 # 2]];
                ItemTuple [PStr "jour"; PStr "ZuR"; PArray [1 # 4]; PStr "extra"];
                ItemTuple [PStr "!"; PStr "!"; PArray [1 # 8]]];
     fault := None |}.

(** One item of three fields whose audio field is not a buffer. *)
Definition not_a_buffer : generator :=
  {| yields := [ItemTuple [PStr "Hello"; PStr "h@lO"; PStr "not audio"]];
     fault := None |}.

Definition planning : level * string :=
  (INFO, "Planification suppression de %s dans %d secondes").

(** ** Lemmas on strings *)

Lemma str_or_nil (s : pystr) : str_or s [] = s.
Proof. by destruct s. Qed.

Lemma lstrip_nil_iff (s : pystr) : lstrip s = [] <-> whitespace_only s.
Proof.
  unfold whitespace_only. induction s as [|c r IH]; simpl.
  - split; [constructor | done].
  - destruct (isspace c) eqn:Hc.
    + rewrite IH. split; [by constructor | by inversion 1].
    + split; [done | inversion 1; congruence].
Qed.

Lemma lstrip_whitespace_only (s : pystr) :
  whitespace_only (lstrip s) -> whitespace_only s.
Proof.
  unfold whitespace_only. induction s as [|c r IH]; simpl; [done|].
  destruct (isspace c) eqn:Hc.
  - intros H. constructor; auto.
  - inversion 1; congruence.
Qed.

Lemma whitespace_only_rev (s : pystr) : whitespace_only (rev s) <-> whitespace_only s.
Proof.
  unfold whitespace_only. split; intros H.
  - rewrite <- (rev_involutive s). by apply Forall_rev.
  - by apply Forall_rev.
Qed.

Lemma strip_nil_iff (s : pystr) : strip s = [] <-> whitespace_only s.
Proof.
  unfold strip, rstrip. split.
  - intros H. apply lstrip_whitespace_only.
    apply whitespace_only_rev, lstrip_nil_iff.
    apply (f_equal (@rev N)) in H. rewrite rev_involutive in H. exact H.
  - intros H. apply lstrip_nil_iff in H. by rewrite H.
Qed.

Lemma lstrip_length (s : pystr) : (length (lstrip s) <= length s)%nat.
Proof.
  induction s as [|c r IH]; simpl; [lia|]. destruct (isspace c); simpl; lia.
Qed.

Lemma strip_length (s : pystr) : (len (strip s) <= len s)%Z.
Proof.
  unfold len, strip, rstrip. rewrite length_rev.
  pose proof (lstrip_length (rev (lstrip s))) as H1.
  rewrite length_rev in H1. pose proof (lstrip_length s). lia.
Qed.

Lemma all_digits_uint (d : Decimal.uint) :
  all_digits (NilEmpty.string_of_uint d) = true.
Proof. induction d; simpl; auto. Qed.

Lemma str_int_digits (n : Z) :
  (0 <= n)%Z -> str_int n <> "" /\ all_digits (str_int n) = true.
Proof.
  intros Hn. unfold str_int. destruct n as [|p|p]; [by split | | lia].
  simpl. generalize (Pos.to_uint p). intros d. split.
  - by destruct d.
  - destruct d; try apply all_digits_uint. reflexivity.
Qed.

Lemma safe_filename_kokoro (ts : Z) : (0 <= ts)%Z -> kokoro_name (safe_filename ts).
Proof.
  intros Hts. exists (str_int ts). destruct (str_int_digits ts Hts) as [H1 H2].
  by repeat split.
Qed.

(** A text that has a character other than whitespace and is within the
    limit passes both validations of the handler. *)
Lemma well_formed_validates (p : TTSRequest) :
  well_formed p ->
  strip (text p) <> [] /\ (len (strip (text p)) <= MAX_TEXT_LENGTH)%Z.
Proof.
  intros [Hw Hl]. split.
  - by rewrite strip_nil_iff.
  - pose proof (strip_length (text p)). lia.
Qed.

(** ** Validation and the engine availability check *)

Lemma rejects_blank (env : Env) (p : TTSRequest) (w : World) :
  strip (text p) = [] -> rejected (synthesize_tts env p w) w 422 detail_422.
Proof.
  intros H. unfold synthesize_tts. rewrite str_or_nil, H. by cbn.
Qed.

Lemma rejects_long (env : Env) (p : TTSRequest) (w : World) :
  (MAX_TEXT_LENGTH < len (strip (text p)))%Z ->
  rejected (synthesize_tts env p w) w 413 detail_413.
Proof.
  intros H. unfold synthesize_tts. rewrite str_or_nil.
  rewrite bool_decide_eq_false_2.
  - apply Z.ltb_lt in H. rewrite H. by cbn.
  - intros E. rewrite E in H. unfold MAX_TEXT_LENGTH, len in H. simpl in H. lia.
Qed.

Lemma rejects_unavailable (env : Env) (p : TTSRequest) (w : World) :
  KPipeline env = None ->
  strip (text p) <> [] -> (len (strip (text p)) <= MAX_TEXT_LENGTH)%Z ->
  rejected (synthesize_tts env p w) w 503 detail_503.
Proof.
  intros HK Hne Hle. unfold synthesize_tts. rewrite str_or_nil.
  rewrite bool_decide_eq_false_2 by done.
  apply Z.ltb_ge in Hle. rewrite Hle, HK. by cbn.
Qed.

(** C4, as stated, fails: a text longer than the maximum whose stripped
    form is within it is not rejected with 413; with no engine the handler
    goes on to the availability check and answers 503. *)
Lemma C4_padded_text_not_413 :
  (MAX_TEXT_LENGTH < len (text (request_of padded)))%Z
  /\ fst (synthesize_tts (env_of None 0) (request_of padded) (start ∅))
     = Raise (HTTPException 503 detail_503).
Proof. split; vm_compute; reflexivity. Qed.

(** C4, amended: for every request and every environment, an empty or
    whitespace-only text is rejected with 422, and a text whose stripped
    form is longer than 3000 characters is rejected with 413; in both cases
    whether or not the engine is available, with no call to the engine and
    no change to the scratch directory. *)
Theorem C4_validation_first (env : Env) (p : TTSRequest) (w : World) :
  (whitespace_only (text p) -> rejected (synthesize_tts env p w) w 422 detail_422)
  /\ ((MAX_TEXT_LENGTH < len (strip (text p)))%Z ->
      rejected (synthesize_tts env p w) w 413 detail_413).
Proof.
  split.
  - intros H. apply rejects_blank. by apply strip_nil_iff.
  - apply rejects_long.
Qed.

Lemma C4_validation_first_witness :
  rejected (synthesize_tts (env_of None 0) (request_of [32; 9; 10]%N) (start ∅))
    (start ∅) 422 detail_422
  /\ rejected (synthesize_tts (env_of (Some (kokoro one_triple)) 0)
                 (request_of (repeat 97%N 3001)) (start ∅))
       (start ∅) 413 detail_413.
Proof.
  split.
  - apply (proj1 (C4_validation_first (env_of None 0) (request_of [32; 9; 10]%N) (start ∅))).
    repeat constructor.
  - apply (proj2 (C4_validation_first (env_of (Some (kokoro one_triple)) 0)
                    (request_of (repeat 97%N 3001)) (start ∅))).
    vm_compute. reflexivity.
Defined.

(** C5: when the engine failed to load ([KPipeline] is [None]), every
    well-formed request is answered 503, with no call to the engine or the
    codec and no change to the scratch directory. *)
Theorem C5_engine_unavailable (env : Env) (p : TTSRequest) (w : World) :
  KPipeline env = None -> well_formed p ->
  rejected (synthesize_tts env p w) w 503 detail_503.
Proof.
  intros HK Hwf. destruct (well_formed_validates p Hwf) as [H1 H2].
  by apply rejects_unavailable.
Qed.

Lemma C5_engine_unavailable_witness :
  rejected (synthesize_tts (env_of None 0) hello (start ∅)) (start ∅) 503 detail_503.
Proof.
  apply (C5_engine_unavailable (env_of None 0) hello (start ∅)).
  - reflexivity.
  - split.
    + intros H. inversion H as [|c r Hc Hr]. vm_compute in Hc. discriminate.
    + vm_compute. discriminate.
Defined.

(** ** Immediate deletion *)

(** What [cleanup_file] does, by the node at the path. *)
Lemma cleanup_file_absent (path : Path) (w : World) :
  fs w !! path_str path = None -> cleanup_file path w = (Ok tt, w).
Proof.
  intros H. unfold cleanup_file, try_except, bind, path_exists.
  rewrite bool_decide_eq_false_2; [done|]. rewrite H. by intros [? ?].
Qed.

Lemma cleanup_file_regular (path : Path) (w : World) (c : content) :
  fs w !! path_str path = Some (File c) ->
  cleanup_file path w =
    (Ok tt, {| fs := delete (path_str path) (fs w);
               log := log w ++ [(INFO, "Supprime fichier temporaire: %s")];
               calls := calls w |}).
Proof.
  intros H. unfold cleanup_file, try_except, bind, path_exists, unlink.
  rewrite bool_decide_eq_true_2 by (rewrite H; eauto). by rewrite H.
Qed.

Lemma cleanup_file_directory (path : Path) (w : World) :
  fs w !! path_str path = Some Dir ->
  cleanup_file path w =
    (Ok tt, {| fs := fs w;
               log := log w ++ [(WARNING, "Erreur suppression fichier %s : %s")];
               calls := calls w |}).
Proof.
  intros H. unfold cleanup_file, try_except, bind, path_exists, unlink.
  rewrite bool_decide_eq_true_2 by (rewrite H; eauto). by rewrite H.
Qed.

(** C10: [cleanup_file] never raises, whatever is at the path; on a path
    that does not exist it changes nothing at all; a deletion that fails
    leaves a warning in the log and nothing else; and on the scratch
    directory a second call changes nothing the first call has not done. *)
Theorem C10_cleanup_idempotent_total (path : Path) (w : World) :
  fst (cleanup_file path w) = Ok tt
  /\ (fs w !! path_str path = None -> cleanup_file path w = (Ok tt, w))
  /\ (fs w !! path_str path = Some Dir ->
      fs (snd (cleanup_file path w)) = fs w
      /\ log (snd (cleanup_file path w))
         = log w ++ [(WARNING, "Erreur suppression fichier %s : %s")])
  /\ no_file (fs (snd (cleanup_file path w))) path
  /\ fs (snd (cleanup_file path (snd (cleanup_file path w))))
     = fs (snd (cleanup_file path w)).
Proof.
  destruct (fs w !! path_str path) as [[c|]|] eqn:H.
  - rewrite (cleanup_file_regular path w c H). cbn [fst snd fs].
    repeat split; try done.
    + intros c'. cbn [fs]. by rewrite lookup_delete_eq.
    + rewrite cleanup_file_absent; [done|]. cbn [fs]. apply lookup_delete_eq.
  - rewrite (cleanup_file_directory path w H). cbn [fst snd fs log].
    repeat split; try done.
    + intros c'. by rewrite H.
    + by rewrite cleanup_file_directory.
  - rewrite (cleanup_file_absent path w H). cbn [fst snd].
    repeat split; try done.
    + intros c'. by rewrite H.
    + by rewrite cleanup_file_absent.
Qed.

Lemma C10_cleanup_idempotent_total_witness :
  cleanup_file (path_join STATIC_DIR "kokoro_1.wav") (start ∅)
  = (Ok tt, start ∅)
  /\ fs (snd (cleanup_file (path_join STATIC_DIR "sub")
                (start {[ "static/sub" := Dir ]})))
     = {[ "static/sub" := Dir ]}.
Proof.
  split.
  - destruct (C10_cleanup_idempotent_total
                (path_join STATIC_DIR "kokoro_1.wav") (start ∅)) as (_ & H & _).
    apply H. reflexivity.
  - destruct (C10_cleanup_idempotent_total (path_join STATIC_DIR "sub")
                (start {[ "static/sub" := Dir ]})) as (_ & _ & H & _).
    apply H. reflexivity.
Defined.

(** ** The synthesis adapter *)

Lemma add_calls_app (w : World) (cs ds : list call) :
  add_calls (add_calls w cs) ds = add_calls w (cs ++ ds).
Proof. unfold add_calls. simpl. by rewrite app_assoc. Qed.

Lemma add_calls_nil (w : World) : add_calls w [] = w.
Proof. destruct w. unfold add_calls. simpl. by rewrite app_nil_r. Qed.

Lemma record_call_eq (c : call) (w : World) :
  record_call c w = (Ok tt, add_calls w [c]).
Proof. reflexivity. Qed.

Lemma skipped_iff_missing (it : item) :
  item_not it || (item_len it <? 3)%Z = true <-> missing_fields it.
Proof.
  destruct it as [|fields]; [by split|].
  destruct fields as [|a fields]; [simpl; split; [lia | done]|].
  cbn [item_not orb item_len missing_fields]. unfold len.
  rewrite Z.ltb_lt. simpl length. lia.
Qed.

Lemma missing_no_audio (it : item) : missing_fields it -> audio_of it = None.
Proof. destruct it as [|[|a [|b [|c [|d r]]]]]; simpl; try done; lia. Qed.

Lemma most_recent_skip (it : item) (rest : list item) :
  audio_of it = None -> most_recent (it :: rest) = most_recent rest.
Proof. unfold most_recent, produced. simpl. by intros ->. Qed.

Lemma most_recent_keep (it : item) (rest : list item) (a la : pyval) :
  audio_of it = Some a ->
  default la (most_recent (it :: rest)) = default a (most_recent rest).
Proof.
  unfold most_recent, produced, omap. simpl. intros ->. rewrite last_cons.
  by destruct (last _).
Qed.

(** The loop visits every item of the sequence, in order, and ends with the
    audio field of the last item that has three fields, or with the value
    it started from when there is none. *)
Lemma for_items_expected (items : list item) :
  Forall expected items ->
  forall (i : nat) (la : pyval) (w : World),
    for_items i items la w
    = (Ok (default la (most_recent items)),
       add_calls w (map CNext (seq i (length items)))).
Proof.
  induction 1 as [|it rest Hit _ IH]; intros i la w.
  - simpl. by rewrite add_calls_nil.
  - cbn [for_items]. unfold bind at 1. rewrite record_call_eq.
    change (map CNext (seq i (length (it :: rest))))
      with ([CNext i] ++ map CNext (seq (S i) (length rest))).
    rewrite <- add_calls_app.
    destruct Hit as [Hm | [a Ha]].
    + rewrite (proj2 (skipped_iff_missing it) Hm), IH.
      by rewrite (most_recent_skip it rest (missing_no_audio it Hm)).
    + destruct it as [|[|g [|p [|a' [|x r]]]]]; try discriminate.
      injection Ha as ->.
      change (item_not (ItemTuple [g; p; a]) || (item_len (ItemTuple [g; p; a]) <? 3)%Z)
        with false.
      cbn iota. unfold bind at 1. cbn [unpack3 ret]. rewrite IH.
      by rewrite (most_recent_keep _ rest a la).
Qed.

Lemma most_recent_missing (items : list item) :
  Forall missing_fields items -> most_recent items = None.
Proof.
  induction 1 as [|it rest Hit _ IH]; [done|].
  by rewrite (most_recent_skip it rest (missing_no_audio it Hit)).
Qed.

Lemma remove_file_no_file (files : gmap string node) (p : Path) :
  no_file (remove_file files p) p.
Proof.
  unfold no_file, remove_file. intros c.
  destruct (files !! path_str p) as [[c'|]|] eqn:H.
  - by rewrite lookup_delete_eq.
  - by rewrite H.
  - by rewrite H.
Qed.

Lemma remove_file_other (files : gmap string node) (p : Path) (q : string) :
  q <> path_str p -> remove_file files p !! q = files !! q.
Proof.
  intros Hq. unfold remove_file.
  destruct (files !! path_str p) as [[c'|]|]; try done.
  by rewrite lookup_delete_ne.
Qed.


(** The [except] handler of the second [try] block: it logs, removes the
    regular file at [out_path] if there is one, and raises [e] again. *)
Lemma generate_failed_eq (out_path : Path) (e : exn) (w : World) :
  generate_failed out_path e w
  = (Raise e,
     {| fs := remove_file (fs w) out_path;
        log := log w ++ [(ERROR, "Erreur pendant génération TTS: %s")];
        calls := calls w |}).
Proof.
  unfold generate_failed, remove_file, bind, logger, path_exists, try_except, unlink, raise, ret.
  cbn [fs log calls].
  destruct (fs w !! path_str out_path) as [[c|]|] eqn:H.
  - rewrite bool_decide_eq_true_2 by eauto. cbn [fs]. by rewrite H.
  - rewrite bool_decide_eq_true_2 by eauto. cbn [fs]. by rewrite H.
  - rewrite bool_decide_eq_false_2; [done|]. by intros [? ?].
Qed.

(** The loop never touches the scratch directory or the log. *)
Lemma for_items_frame (items : list item) :
  forall (i : nat) (la : pyval) (w : World),
    fs (snd (for_items i items la w)) = fs w
    /\ log (snd (for_items i items la w)) = log w.
Proof.
  induction items as [|it rest IH]; intros i la w; [done|].
  cbn [for_items]. unfold bind at 1. rewrite record_call_eq.
  destruct (item_not it || (item_len it <? 3)%Z).
  - apply (IH (S i) la (add_calls w [CNext i])).
  - unfold bind. destruct it as [|[|g [|p [|a [|x r]]]]]; cbn [unpack3 raise ret];
      try done.
    apply (IH (S i) a (add_calls w [CNext i])).
Qed.

Lemma for_gen_frame (gen : generator) (la : pyval) (w : World) :
  fs (snd (for_gen gen la w)) = fs w.
Proof.
  unfold for_gen, bind.
  pose proof (for_items_frame (yields gen) 0%nat la w) as [H _].
  destruct (for_items 0 (yields gen) la w) as [[v|e] w1]; cbn [snd] in *.
  - by destruct (fault gen).
  - done.
Qed.

Lemma sf_write_other (env : Env) (file : string) (d : pyval) (sr : Z) (w : World)
    (q : string) :
  q <> file -> fs (snd (sf_write env file d sr w)) !! q = fs w !! q.
Proof.
  intros Hq. unfold sf_write, bind. rewrite record_call_eq.
  cbn [fs add_calls].
  destruct (fs w !! file) as [[c|]|]; try done;
    destruct (codec_fault env) as [[e [|]]|]; cbn [snd fs]; try done;
    try (by rewrite lookup_insert_ne);
    destruct d; cbn [snd fs]; try done; by rewrite lookup_insert_ne.
Qed.

Section Adapter.

Variable env : Env.
Variable engine : Engine.
Variable payload : TTSRequest.
Variables (txt : pystr) (voice_name lang_code : string) (out_path : Path).

Let gen := engine_call engine lang_code txt voice_name (speed payload).
Let run := run_pipeline_and_write env engine payload txt voice_name lang_code out_path.
Let body := generate env engine payload txt voice_name lang_code out_path.

Lemma run_init_ok (w : World) :
  engine_init engine lang_code = None ->
  run w = try_except body (generate_failed out_path) (add_calls w [CInit lang_code]).
Proof.
  intros H. unfold run, run_pipeline_and_write, new_pipeline.
  unfold bind at 1. unfold try_except at 1. unfold bind at 1.
  rewrite record_call_eq, H. reflexivity.
Qed.

Lemma run_init_failed (w : World) (e : exn) :
  engine_init engine lang_code = Some e ->
  run w = (Raise (RuntimeError "Erreur d'initialisation du moteur TTS."),
           add_log (add_calls w [CInit lang_code])
             [(ERROR, "Erreur initialisation KPipeline: %s")]).
Proof.
  intros H. unfold run, run_pipeline_and_write, new_pipeline.
  unfold bind at 1. unfold try_except at 1. unfold bind at 1.
  rewrite record_call_eq, H. reflexivity.
Qed.

(** The second [try] block writes to [out_path] only. *)
Lemma generate_other (w : World) (q : string) :
  q <> path_str out_path -> fs (snd (body w)) !! q = fs w !! q.
Proof.
  intros Hq. unfold body, generate, call_pipeline.
  unfold bind at 1. unfold bind at 1. rewrite record_call_eq. cbn [ret].
  unfold bind at 1.
  pose proof (for_gen_frame (engine_call engine lang_code txt voice_name (speed payload))
                PNone (add_calls w [CPipeline txt voice_name (speed payload)])) as Hf.
  destruct (for_gen _ PNone _) as [[v|e] w1]; cbn [snd add_calls fs] in Hf |- *;
    [|by rewrite Hf].
  assert (forall d, fs (snd ((write_wav_file env out_path d AUDIO_SR ;;;
                              logger INFO "Fichier audio généré: %s" ;;;
                              ret (name out_path)) w1)) !! q = fs w !! q) as Hw.
  { intros d. unfold bind, write_wav_file.
    pose proof (sf_write_other env (path_str out_path) d AUDIO_SR w1 q Hq) as Hs.
    destruct (sf_write env (path_str out_path) d AUDIO_SR w1) as [[[]|e] w2];
      cbn [snd logger ret fs] in *; by rewrite Hs, Hf. }
  destruct v; try apply Hw. cbn. by rewrite Hf.
Qed.

(** The second [try] block on a sequence of expected items that ends
    without an exception: the loop result decides. *)
Lemma generate_expected (w : World) :
  fault gen = None -> Forall expected (yields gen) ->
  body w =
    let w1 := add_calls w (CPipeline txt voice_name (speed payload)
                           :: map CNext (seq 0 (length (yields gen)))) in
    match default PNone (most_recent (yields gen)) with
    | PNone =>
        (Raise (RuntimeError "Aucune sortie audio produite par le modèle."),
         add_log w1 [(ERROR, "Pipeline n'a retourné aucun audio.")])
    | audio =>
        (write_wav_file env out_path audio AUDIO_SR ;;;
         logger INFO "Fichier audio généré: %s" ;;;
         ret (name out_path)) w1
    end.
Proof.
  intros Hend Hitems. unfold body, generate, call_pipeline.
  unfold bind at 1. unfold bind at 1. rewrite record_call_eq. cbn [ret].
  unfold bind at 1. unfold for_gen. unfold bind at 1.
  rewrite (for_items_expected _ Hitems). fold gen. rewrite Hend. cbn [ret].
  rewrite add_calls_app. cbn [app].
  by destruct (default PNone (most_recent (yields gen))).
Qed.

End Adapter.

(** ** Claims on the synthesis adapter *)

(** C8: when the engine context was created and the call then fails, while
    iterating over the sequence or while writing the file, the adapter
    raises that same failure, and before it does it removes the regular file
    at the output path: none is left there, and no other path of the scratch
    directory has changed. *)
Theorem C8_failure_removes_file (env : Env) (engine : Engine) (payload : TTSRequest)
    (txt : pystr) (voice_name lang_code : string) (out_path : Path) (w : World)
    (e : exn) :
  let r := run_pipeline_and_write env engine payload txt voice_name lang_code out_path w in
  let tried := generate env engine payload txt voice_name lang_code out_path
                 (add_calls w [CInit lang_code]) in
  engine_init engine lang_code = None ->
  fst r = Raise e ->
  fst tried = Raise e
  /\ fs (snd r) = remove_file (fs (snd tried)) out_path
  /\ no_file (fs (snd r)) out_path
  /\ (forall q, q <> path_str out_path -> fs (snd r) !! q = fs w !! q).
Proof.
  intros r tried Hinit Hr. subst r. rewrite run_init_ok in * by done.
  unfold try_except in *. fold tried in Hr |- *.
  pose proof (fun q => generate_other env engine payload txt voice_name lang_code
                         out_path (add_calls w [CInit lang_code]) q) as Hother.
  fold tried in Hother.
  destruct tried as [[f|e'] w1]; [discriminate|].
  rewrite generate_failed_eq in *. cbn [fst snd fs] in *. injection Hr as ->.
  repeat split.
  - apply remove_file_no_file.
  - intros q Hq. rewrite remove_file_other by done. by rewrite Hother.
Qed.

Lemma C8_failure_removes_file_witness :
  fs (snd (generate env_disk_full (kokoro one_triple) hello
             (text hello) DEFAULT_VOICE DEFAULT_LANG out_example
             (add_calls (start ∅) [CInit DEFAULT_LANG])))
    !! path_str out_example = Some (File Truncated)
  /\ no_file (fs (snd (run_pipeline_and_write env_disk_full (kokoro one_triple) hello
                         (text hello) DEFAULT_VOICE DEFAULT_LANG out_example (start ∅))))
       out_example.
Proof.
  split; [vm_compute; reflexivity|].
  apply (C8_failure_removes_file env_disk_full (kokoro one_triple) hello
           (text hello) DEFAULT_VOICE DEFAULT_LANG out_example (start ∅)
           (OSError "No space left on device")).
  - reflexivity.
  - vm_compute. reflexivity.
Defined.

(** ** What a computation can return *)

Lemma returns_ret {A} (P : A -> Prop) (a : A) : P a -> returns P (ret a).
Proof. intros H w a' w' E. by injection E as <- _. Qed.

Lemma returns_raise {A} (P : A -> Prop) (e : exn) : returns P (raise e).
Proof. intros w a w' E. discriminate. Qed.

Lemma returns_bind {A B} (P : B -> Prop) (m : M A) (k : A -> M B) :
  (forall x, returns P (k x)) -> returns P (bind m k).
Proof.
  intros H w b w' E. unfold bind in E.
  destruct (m w) as [[x|e] w1]; [by eapply H | discriminate].
Qed.

Lemma returns_try {A} (P : A -> Prop) (body : M A) (handler : exn -> M A) :
  returns P body -> (forall e, returns P (handler e)) ->
  returns P (try_except body handler).
Proof.
  intros Hb Hh w a w' E. unfold try_except in E.
  destruct (body w) as [[x|e] w1] eqn:Eb.
  - injection E as <- _. by eapply Hb.
  - by eapply Hh.
Qed.

Create HintDb returns.
#[local] Hint Resolve returns_raise : returns.

Section Handler.

Variable env : Env.
Variable engine : Engine.
Variable payload : TTSRequest.
Variables (txt : pystr) (voice_name lang_code : string) (out_path : Path).

Let run := run_pipeline_and_write env engine payload txt voice_name lang_code out_path.
Let first := first_attempt env engine payload txt voice_name lang_code out_path.
Let again := retry env engine payload txt voice_name lang_code out_path.
Let step4 := offload env engine payload txt voice_name lang_code out_path.

(** A synthesis call that returns, returns the name of its output file. *)
Lemma run_returns_name : returns (fun f => f = name out_path) run.
Proof.
  unfold run, run_pipeline_and_write. apply returns_bind. intros _.
  apply returns_try.
  - unfold generate. apply returns_bind. intros gen.
    apply returns_bind. intros last_audio.
    destruct last_audio;
      repeat (apply returns_bind; intros ?); auto using returns_raise, returns_ret.
  - intros e. unfold generate_failed.
    repeat (apply returns_bind; intros ?). apply returns_raise.
Qed.

(** The first attempt is a call of [get_event_loop] under the timeout: it
    does not depend on the engine and leaves the state as it was. *)
Lemma first_attempt_eq (w : World) :
  first w =
    (if Qle_bool (thunk_seconds env) (inject_Z PIPELINE_TIMEOUT)
     then match worker_loop env with
          | Some l => Ok (PLoop l)
          | None => Raise (RuntimeError "There is no current event loop in thread")
          end
     else Raise TimeoutError,
     w).
Proof.
  unfold first, first_attempt, await, wait_for, to_thread, job, seconds,
    first_thunk, get_event_loop.
  destruct (Qle_bool _ _); [|done]. by destruct (worker_loop env).
Qed.

Lemma retry_failed_raises (e : exn) (w : World) :
  exists code detail w', retry_failed e w = (Raise (HTTPException code detail), w')
                         /\ (code = 504 \/ code = 500)
                         /\ fs w' = fs w /\ calls w' = calls w.
Proof.
  destruct e; cbn; eauto 10.
Qed.

(** In a worker thread that has no event loop, whatever [offload]
    returns is the name of the output file, as a string. *)
Lemma offload_returns_name :
  worker_loop env = None -> returns (fun v => v = PStr (name out_path)) step4.
Proof.
  intros Hloop. unfold step4, offload. apply returns_try.
  - intros w a w' E. fold first in E. rewrite first_attempt_eq, Hloop in E.
    by destruct (Qle_bool _ _).
  - intros e. assert (returns (fun v => v = PStr (name out_path))
                        (try_except again retry_failed)) as Hretry.
    { apply returns_try.
      - unfold again, retry, await, to_thread, job, sync_wrapper, run_until_complete.
        intros w v w' E. unfold bind in E.
        destruct (run_pipeline_and_write _ _ _ _ _ _ _ w) as [[f|e'] w1] eqn:Er;
          [|discriminate].
        injection E as <- _. f_equal. by eapply run_returns_name.
      - intros e'. destruct e'; cbn; apply returns_bind; intros; apply returns_raise. }
    destruct e; cbn [first_failed]; apply returns_bind; intros;
      first [apply returns_raise | exact Hretry].
Qed.

End Handler.

Lemma returns_bind_with {A B} (Q : A -> Prop) (P : B -> Prop) (m : M A) (k : A -> M B) :
  returns Q m -> (forall x, Q x -> returns P (k x)) -> returns P (bind m k).
Proof.
  intros Hm Hk w b w' E. unfold bind in E.
  destruct (m w) as [[x|e] w1] eqn:Em; [|discriminate].
  eapply Hk; [by eapply Hm | exact E].
Qed.

(** ** Claims on the request handler *)

(** C2: the first, timeout-bounded attempt awaits [get_event_loop] and
    nothing else: it never runs the pipeline and leaves the state as it
    was. Whenever step 4 returns a value, either that value is the event
    loop object of the first attempt and nothing was synthesized, or the
    first attempt raised [RuntimeError] and the value is the file name that
    the retry returned. The retry awaits the synthesis itself, under no
    timeout: its outcome and that of step 4 are the same however long the
    synthesis takes. *)
Theorem C2_synthesis_only_in_retry (env : Env) (engine : Engine) (payload : TTSRequest)
    (txt : pystr) (voice_name lang_code : string) (out_path : Path) (w : World) :
  let first := first_attempt env engine payload txt voice_name lang_code out_path in
  let again := retry env engine payload txt voice_name lang_code out_path in
  let step4 := offload env engine payload txt voice_name lang_code out_path in
  first = await (wait_for (to_thread (thunk_seconds env) (get_event_loop env))
                   PIPELINE_TIMEOUT)
  /\ snd (first w) = w
  /\ (forall v w', step4 w = (Ok v, w') ->
        (exists l, v = PLoop l /\ w' = w)
        \/ ((exists msg, fst (first w) = Raise (RuntimeError msg))
            /\ try_except again retry_failed (add_log w [retrying]) = (Ok v, w')
            /\ v = PStr (name out_path)))
  /\ again = sync_wrapper env engine payload txt voice_name lang_code out_path
  /\ (forall secs,
        retry (set_synthesis_seconds env secs) engine payload txt voice_name lang_code
          out_path w = again w
        /\ offload (set_synthesis_seconds env secs) engine payload txt voice_name
             lang_code out_path w = step4 w).
Proof.
  intros first again step4. split; [reflexivity|]. split.
  { subst first. by rewrite first_attempt_eq. }
  split; [|split; [reflexivity | intros secs; split; reflexivity]].
  intros v w' E.
  pose proof (offload_returns_name env engine payload txt voice_name lang_code out_path)
    as Hname.
  pose proof E as E'. unfold step4, offload, try_except in E.
  fold first in E. subst first. rewrite first_attempt_eq in *. cbn [fst].
  destruct (Qle_bool _ _).
  - destruct (worker_loop env) as [l|] eqn:Hloop.
    + left. exists l. by injection E as <- <-.
    + right. split; [eauto|]. split; [exact E|].
      by apply (Hname eq_refl w v w').
  - discriminate.
Qed.

Lemma C2_synthesis_only_in_retry_witness :
  try_except
    (retry (env_of (Some (kokoro one_triple)) 61) (kokoro one_triple) hello (text hello)
       DEFAULT_VOICE DEFAULT_LANG out_example)
    retry_failed (add_log (start ∅) [retrying])
  = (Ok (PStr "kokoro_1699999999123.wav"),
     snd (offload (env_of (Some (kokoro one_triple)) 61) (kokoro one_triple) hello
            (text hello) DEFAULT_VOICE DEFAULT_LANG out_example (start ∅))).
Proof.
  destruct (C2_synthesis_only_in_retry (env_of (Some (kokoro one_triple)) 61)
              (kokoro one_triple) hello (text hello) DEFAULT_VOICE DEFAULT_LANG
              out_example (start ∅)) as (_ & _ & H & _).
  destruct (H (PStr "kokoro_1699999999123.wav")
              (snd (offload (env_of (Some (kokoro one_triple)) 61) (kokoro one_triple)
                      hello (text hello) DEFAULT_VOICE DEFAULT_LANG out_example
                      (start ∅))))
    as [(l & Hl & _) | (_ & Hretry & _)].
  - vm_compute. reflexivity.
  - discriminate Hl.
  - exact Hretry.
Defined.

(** C9: when the clock is at or after the epoch and the worker thread has no
    event loop of its own, every response the handler returns has
    [success = true], a file name that is [kokoro_], the decimal digits of
    the millisecond timestamp and [.wav], and a download URL that is
    [/download/] followed by that file name. *)
Theorem C9_success_response (env : Env) (p : TTSRequest) (w w' : World)
    (resp : APIResponse) :
  (0 <= time_ms env)%Z ->
  worker_loop env = None ->
  synthesize_tts env p w = (Ok resp, w') ->
  success resp = true
  /\ exists fname,
       data resp = Some {| filename := PStr fname;
                           download_url := "/download/" +:+ fname |}
       /\ fname = "kokoro_" +:+ str_int (time_ms env) +:+ ".wav"
       /\ kokoro_name fname.
Proof.
  intros Hts Hloop. revert w resp w'.
  change (returns (fun resp =>
            success resp = true
            /\ exists fname,
                 data resp = Some {| filename := PStr fname;
                                     download_url := "/download/" +:+ fname |}
                 /\ fname = "kokoro_" +:+ str_int (time_ms env) +:+ ".wav"
                 /\ kokoro_name fname)
            (synthesize_tts env p)).
  unfold synthesize_tts.
  destruct (bool_decide _); [apply returns_bind; auto with returns|].
  destruct (_ <? _)%Z; [apply returns_bind; auto with returns|].
  destruct (KPipeline env) as [engine|]; [|apply returns_bind; auto with returns].
  apply returns_bind. intros _.
  eapply returns_bind_with; [by apply offload_returns_name|].
  intros v ->. apply returns_ret. cbn. split; [done|].
  eexists. split; [reflexivity|]. split; [reflexivity|].
  by apply safe_filename_kokoro.
Qed.

Lemma C9_success_response_witness :
  exists fname,
    data {| success := true;
            message := "Audio généré avec succès.";
            data := Some {| filename := PStr "kokoro_1699999999123.wav";
                            download_url := "/download/kokoro_1699999999123.wav" |} |}
    = Some {| filename := PStr fname; download_url := "/download/" +:+ fname |}
    /\ fname = "kokoro_" +:+ str_int (time_ms (env_of (Some (kokoro one_triple)) 2))
               +:+ ".wav"
    /\ kokoro_name fname.
Proof.
  refine (proj2 (C9_success_response (env_of (Some (kokoro one_triple)) 2) hello (start ∅)
                   (snd (synthesize_tts (env_of (Some (kokoro one_triple)) 2) hello
                           (start ∅)))
                   _ _ _ _)).
  - vm_compute. discriminate.
  - reflexivity.
  - vm_compute. reflexivity.
Defined.

(** ** The timeout and the synthesis *)

(** C1, on the code: a request whose synthesis takes 61 seconds, longer than
    the timeout of 60, is answered with success and the file is written;
    no 504 is raised. *)
Theorem C1_slow_synthesis_answers_200 :
  Qlt (inject_Z PIPELINE_TIMEOUT) (synthesis_seconds env_slow)
  /\ fst (synthesize_tts env_slow hello (start ∅))
     = Ok {| success := true;
             message := "Audio généré avec succès.";
             data := Some {| filename := PStr "kokoro_1699999999123.wav";
                             download_url := "/download/kokoro_1699999999123.wav" |} |}
  /\ fs (snd (synthesize_tts env_slow hello (start ∅)))
       !! "static/kokoro_1699999999123.wav"
     = Some (File (Wav 24000 [1 # 2; -1 # 4])).
Proof. repeat split; vm_compute; reflexivity. Qed.

(** C3, on the code: after the first attempt has failed with [RuntimeError],
    the handler retries once; a retry that takes an hour, far longer than
    the timeout, and then fails is answered 500, not 504: the retry is under
    no timeout. *)
Theorem C3_slow_retry_answers_500 :
  Qlt (inject_Z PIPELINE_TIMEOUT) (synthesis_seconds env_slow_failing)
  /\ fst (first_attempt env_slow_failing (kokoro failing) hello (text hello)
            DEFAULT_VOICE DEFAULT_LANG out_example (start ∅))
     = Raise (RuntimeError "There is no current event loop in thread")
  /\ fst (synthesize_tts env_slow_failing hello (start ∅))
     = Raise (HTTPException 500 "Erreur interne lors de la génération TTS.")
  /\ calls (snd (synthesize_tts env_slow_failing hello (start ∅)))
     = [CInit "f"; CPipeline (text hello) "af_heart" (Some 1%Q); CNext 0].
Proof. repeat split; vm_compute; reflexivity. Qed.

(** ** More on the synthesis adapter *)

(** The loop ends normally only on a sequence of expected items. *)
Lemma for_items_returns (items : list item) :
  forall (i : nat) (la v : pyval) (w w' : World),
    for_items i items la w = (Ok v, w') -> Forall expected items.
Proof.
  induction items as [|it rest IH]; intros i la v w w' E; [constructor|].
  cbn [for_items] in E. unfold bind at 1 in E. rewrite record_call_eq in E.
  destruct (item_not it || (item_len it <? 3)%Z) eqn:Hskip.
  - constructor; [left; by apply skipped_iff_missing | by eapply IH].
  - unfold bind in E.
    destruct it as [|[|g [|p [|a [|x r]]]]]; cbn [unpack3 raise ret] in E;
      try discriminate.
    constructor; [right; by eexists | by eapply IH].
Qed.

(** The loop asks for the items in order and stops at the first one it
    cannot unpack. *)
Lemma for_items_calls (items : list item) :
  forall (i : nat) (la : pyval) (w : World),
    exists k, calls (snd (for_items i items la w)) = calls w ++ map CNext (seq i k).
Proof.
  induction items as [|it rest IH]; intros i la w.
  - exists 0%nat. cbn. by rewrite app_nil_r.
  - cbn [for_items]. unfold bind at 1. rewrite record_call_eq.
    assert (forall la', exists k,
               calls (snd (for_items (S i) rest la' (add_calls w [CNext i])))
               = calls w ++ map CNext (seq i k)) as Hrest.
    { intros la'. destruct (IH (S i) la' (add_calls w [CNext i])) as [k Hk].
      exists (S k). rewrite Hk. cbn [add_calls calls seq map].
      by rewrite <- app_assoc. }
    destruct (item_not it || (item_len it <? 3)%Z); [apply Hrest|].
    unfold bind.
    destruct it as [|[|g [|p [|a [|x r]]]]]; cbn [unpack3 raise ret snd];
      try apply Hrest; by exists 1%nat.
Qed.

Section AdapterOutcome.

Variable env : Env.
Variable engine : Engine.
Variable payload : TTSRequest.
Variables (txt : pystr) (voice_name lang_code : string) (out_path : Path).

Let gen := engine_call engine lang_code txt voice_name (speed payload).
Let run := run_pipeline_and_write env engine payload txt voice_name lang_code out_path.
Let body := generate env engine payload txt voice_name lang_code out_path.

(** What a successful pass through the second [try] block has done. *)
Lemma generate_returns (w w' : World) (f : string) :
  body w = (Ok f, w') ->
  f = name out_path
  /\ fault gen = None /\ Forall expected (yields gen)
  /\ exists a,
       most_recent (yields gen) = Some (PArray a)
       /\ fs w' = <[path_str out_path := File (Wav AUDIO_SR a)]> (fs w)
       /\ calls w' = calls w
                     ++ CPipeline txt voice_name (speed payload)
                        :: map CNext (seq 0 (length (yields gen)))
                     ++ [CWrite (path_str out_path) AUDIO_SR].
Proof.
  intros E.
  assert (fault gen = None /\ Forall expected (yields gen)) as [Hend Hitems].
  { unfold body, generate, call_pipeline in E.
    unfold bind at 1 in E. unfold bind at 1 in E. rewrite record_call_eq in E.
    cbn [ret] in E. unfold bind at 1 in E. unfold for_gen in E.
    unfold bind at 1 in E. fold gen in E.
    destruct (for_items 0 (yields gen) PNone _) as [[v|e] w1] eqn:Ef;
      [|discriminate].
    split; [|by eapply for_items_returns].
    destruct (fault gen); [discriminate | done]. }
  unfold body in E. rewrite generate_expected in E by done. fold gen in E.
  cbv zeta in E.
  assert (forall d,
             (write_wav_file env out_path d AUDIO_SR ;;;
              logger INFO "Fichier audio généré: %s" ;;;
              ret (name out_path))
               (add_calls w (CPipeline txt voice_name (speed payload)
                             :: map CNext (seq 0 (length (yields gen)))))
             = (Ok f, w') ->
             f = name out_path
             /\ exists a, d = PArray a
                /\ fs w' = <[path_str out_path := File (Wav AUDIO_SR a)]> (fs w)
                /\ calls w' = calls w
                              ++ CPipeline txt voice_name (speed payload)
                                 :: map CNext (seq 0 (length (yields gen)))
                              ++ [CWrite (path_str out_path) AUDIO_SR]) as Hwrite.
  { intros d Ew. unfold write_wav_file, sf_write in Ew.
    unfold bind at 1 in Ew. unfold bind at 1 in Ew. rewrite record_call_eq in Ew.
    cbn [fs add_calls] in Ew.
    destruct (fs w !! path_str out_path) as [[c|]|];
      try discriminate;
      destruct (codec_fault env) as [[e [|]]|]; try discriminate;
      destruct d; try discriminate;
      unfold bind, logger, ret in Ew; cbn [fs log calls] in Ew;
      injection Ew as <- <-; cbn [fs calls];
      (split; [done|]); eexists; (split; [done|]); (split; [done|]);
      by rewrite <- app_assoc. }
  destruct (most_recent (yields gen)) as [[|s|a|l]|] eqn:Hlast;
    cbn [default from_option id] in E; try discriminate;
    destruct (Hwrite _ E) as (Hf & a' & Ha & Hfs & Hcalls); try discriminate.
  injection Ha as <-. repeat split; try done. by exists a.
Qed.

(** The second [try] block asks the pipeline once, then for items in
    order, and calls the codec at most once, last. *)
Lemma generate_calls (w : World) :
  exists k wr,
    calls (snd (body w))
    = calls w ++ CPipeline txt voice_name (speed payload) :: map CNext (seq 0 k) ++ wr
    /\ (wr = [] \/ wr = [CWrite (path_str out_path) AUDIO_SR]).
Proof.
  unfold body, generate, call_pipeline.
  unfold bind at 1. unfold bind at 1. rewrite record_call_eq. cbn [ret].
  unfold bind at 1. unfold for_gen. unfold bind at 1. fold gen.
  destruct (for_items_calls (yields gen) 0%nat PNone
              (add_calls w [CPipeline txt voice_name (speed payload)])) as [k Hk].
  cbn [add_calls calls] in Hk. rewrite <- app_assoc in Hk. cbn [app] in Hk.
  destruct (for_items 0 (yields gen) PNone _) as [[v|e] w1]; cbn [snd] in Hk.
  2:{ exists k, []. rewrite app_nil_r. by split; [|left]. }
  destruct (fault gen) as [e|]; cbn [raise ret].
  { exists k, []. rewrite app_nil_r. by split; [|left]. }
  assert (forall d, exists wr,
             calls (snd ((write_wav_file env out_path d AUDIO_SR ;;;
                          logger INFO "Fichier audio généré: %s" ;;;
                          ret (name out_path)) w1))
             = calls w1 ++ wr
             /\ (wr = [] \/ wr = [CWrite (path_str out_path) AUDIO_SR])) as Hwrite.
  { intros d. exists [CWrite (path_str out_path) AUDIO_SR]. split; [|by right].
    unfold write_wav_file, sf_write. unfold bind at 1. unfold bind at 1.
    rewrite record_call_eq. cbn [fs add_calls].
    destruct (fs w1 !! path_str out_path) as [[c|]|];
      try done;
      destruct (codec_fault env) as [[e [|]]|]; try done;
      destruct d; done. }
  destruct v.
  - exists k, []. cbn. rewrite app_nil_r. by split; [|left].
  - destruct (Hwrite (PStr s)) as (wr & -> & Hwr). exists k, wr.
    rewrite Hk, <- app_assoc. by split.
  - destruct (Hwrite (PArray a)) as (wr & -> & Hwr). exists k, wr.
    rewrite Hk, <- app_assoc. by split.
  - destruct (Hwrite (PLoop l)) as (wr & -> & Hwr). exists k, wr.
    rewrite Hk, <- app_assoc. by split.
Qed.

End AdapterOutcome.

(** At its file the codec leaves what was there or a regular file. *)
Lemma sf_write_at (env : Env) (file : string) (d : pyval) (sr : Z) (w : World) :
  fs (snd (sf_write env file d sr w)) !! file = fs w !! file
  \/ exists c, fs (snd (sf_write env file d sr w)) !! file = Some (File c).
Proof.
  unfold sf_write, bind. rewrite record_call_eq. cbn [fs add_calls].
  destruct (fs w !! file) as [[c|]|] eqn:Hfile;
    try (left; cbn [snd fs add_calls]; by rewrite Hfile);
    destruct (codec_fault env) as [[e [|]]|];
    try (left; cbn [snd fs add_calls]; by rewrite Hfile);
    try (right; eexists; cbn [snd fs]; by rewrite lookup_insert_eq);
    destruct d;
    try (left; cbn [snd fs add_calls]; by rewrite Hfile);
    right; eexists; cbn [snd fs]; by rewrite lookup_insert_eq.
Qed.

Section AdapterRun.

Variable env : Env.
Variable engine : Engine.
Variable payload : TTSRequest.
Variables (txt : pystr) (voice_name lang_code : string) (out_path : Path).

Let gen := engine_call engine lang_code txt voice_name (speed payload).
Let run := run_pipeline_and_write env engine payload txt voice_name lang_code out_path.
Let body := generate env engine payload txt voice_name lang_code out_path.

(** At the output path the second [try] block leaves what was there or a
    regular file. *)
Lemma generate_at (w : World) :
  fs (snd (body w)) !! path_str out_path = fs w !! path_str out_path
  \/ exists c, fs (snd (body w)) !! path_str out_path = Some (File c).
Proof.
  remember (fs (snd (body w)) !! path_str out_path) as x eqn:Hx.
  unfold body, generate, call_pipeline in Hx.
  unfold bind at 1 in Hx. unfold bind at 1 in Hx. rewrite record_call_eq in Hx.
  cbn [ret] in Hx. unfold bind at 1 in Hx.
  pose proof (for_gen_frame (engine_call engine lang_code txt voice_name (speed payload))
                PNone (add_calls w [CPipeline txt voice_name (speed payload)])) as Hf.
  destruct (for_gen _ PNone _) as [[v|e] w1]; cbn [snd add_calls fs] in Hf, Hx;
    [|left; by rewrite Hx, Hf].
  assert (forall d y,
             y = fs (snd ((write_wav_file env out_path d AUDIO_SR ;;;
                           logger INFO "Fichier audio généré: %s" ;;;
                           ret (name out_path)) w1)) !! path_str out_path ->
             y = fs w !! path_str out_path \/ exists c, y = Some (File c)) as Hw.
  { intros d y Hy. unfold bind, write_wav_file in Hy.
    pose proof (sf_write_at env (path_str out_path) d AUDIO_SR w1) as Hs.
    rewrite Hf in Hs.
    destruct (sf_write env (path_str out_path) d AUDIO_SR w1) as [[[]|e] w2];
      cbn [snd logger ret fs] in *; by rewrite Hy. }
  destruct v; try (by eapply Hw). left. cbn in Hx. by rewrite Hx, Hf.
Qed.

(** A synthesis call changes no path but its output path. *)
Lemma run_other (w : World) (q : string) :
  q <> path_str out_path -> fs (snd (run w)) !! q = fs w !! q.
Proof.
  intros Hq. destruct (engine_init engine lang_code) as [e|] eqn:Hinit.
  - unfold run. by rewrite (run_init_failed _ _ _ _ _ _ _ _ e).
  - unfold run. rewrite run_init_ok by done. unfold try_except.
    pose proof (generate_other env engine payload txt voice_name lang_code out_path
                  (add_calls w [CInit lang_code]) q Hq) as Hg.
    destruct (generate _ _ _ _ _ _ _ _) as [[f|e] w1]; cbn [snd] in *; [done|].
    rewrite generate_failed_eq. cbn [snd fs].
    by rewrite remove_file_other.
Qed.

(** A synthesis call that fails leaves the scratch directory as it found
    it when nothing was at the output path. *)
Lemma run_failed_restores (w w' : World) (e : exn) :
  run w = (Raise e, w') -> fs w !! path_str out_path = None -> fs w' = fs w.
Proof.
  intros E Hfree. destruct (engine_init engine lang_code) as [e0|] eqn:Hinit.
  - unfold run in E. rewrite (run_init_failed _ _ _ _ _ _ _ _ e0) in E by done.
    by injection E as _ <-.
  - unfold run in E. rewrite run_init_ok in E by done. unfold try_except in E.
    pose proof (generate_at (add_calls w [CInit lang_code])) as Hat.
    pose proof (fun q => generate_other env engine payload txt voice_name lang_code
                           out_path (add_calls w [CInit lang_code]) q) as Hother.
    unfold body in Hat.
    destruct (generate _ _ _ _ _ _ _ _) as [[f|e1] w1]; cbn [snd add_calls fs] in *;
      [discriminate|].
    rewrite generate_failed_eq in E. injection E as _ <-. cbn [fs].
    apply map_eq. intros q. destruct (decide (q = path_str out_path)) as [->|Hq].
    + rewrite Hfree. unfold remove_file.
      destruct Hat as [Hat | [c Hat]]; rewrite Hat.
      * by rewrite Hfree, Hat.
      * apply lookup_delete_eq.
    + rewrite remove_file_other by done. by apply Hother.
Qed.

(** What a synthesis call that returns has done: the engine context was
    created, the sequence ended normally with expected items only, and the
    file holds the most recent audio. *)
Lemma run_returns (w w' : World) (f : string) :
  run w = (Ok f, w') ->
  f = name out_path
  /\ engine_init engine lang_code = None
  /\ fault gen = None /\ Forall expected (yields gen)
  /\ exists a,
       most_recent (yields gen) = Some (PArray a)
       /\ fs w' = <[path_str out_path := File (Wav AUDIO_SR a)]> (fs w).
Proof.
  intros E. destruct (engine_init engine lang_code) as [e0|] eqn:Hinit.
  - unfold run in E. by rewrite (run_init_failed _ _ _ _ _ _ _ _ e0) in E.
  - unfold run in E. rewrite run_init_ok in E by done. unfold try_except in E.
    destruct (generate _ _ _ _ _ _ _ _) as [[f1|e1] w1] eqn:Eg.
    + injection E as <- <-.
      destruct (generate_returns _ _ _ _ _ _ _ _ _ _ Eg)
        as (Hf & Hend & Hitems & a & Hlast & Hfs & _).
      repeat split; try done. exists a. by split.
    + by rewrite generate_failed_eq in E.
Qed.

(** The calls of a synthesis call: the constructor, then those of the
    second [try] block if the constructor succeeds. *)
Lemma run_calls (w : World) :
  calls (snd (run w)) = calls w ++ [CInit lang_code]
  \/ exists k wr,
       calls (snd (run w))
       = calls w ++ CInit lang_code :: CPipeline txt voice_name (speed payload)
                    :: map CNext (seq 0 k) ++ wr
       /\ (wr = [] \/ wr = [CWrite (path_str out_path) AUDIO_SR]).
Proof.
  destruct (engine_init engine lang_code) as [e0|] eqn:Hinit.
  - left. unfold run. by rewrite (run_init_failed _ _ _ _ _ _ _ _ e0).
  - right. unfold run. rewrite run_init_ok by done. unfold try_except.
    destruct (generate_calls env engine payload txt voice_name lang_code out_path
                (add_calls w [CInit lang_code])) as (k & wr & Hc & Hwr).
    exists k, wr. split; [|done].
    destruct (generate _ _ _ _ _ _ _ _) as [[f1|e1] w1]; cbn [snd] in *.
    + rewrite Hc. cbn [add_calls calls]. by rewrite <- app_assoc.
    + rewrite generate_failed_eq. cbn [snd calls]. rewrite Hc.
      cbn [add_calls calls]. by rewrite <- app_assoc.
Qed.

End AdapterRun.

(** ** The handler of POST /tts, outcome by outcome *)

Section HandlerOutcome.

Variable env : Env.
Variable p : TTSRequest.

Let out_path := out_path_of env.

(** The handler, with its binds evaluated. *)
Lemma synthesize_eq (w : World) :
  synthesize_tts env p w =
    if bool_decide (text_of p = [])
    then (Raise (HTTPException 422 detail_422),
          add_log w [(WARNING, "Requete TTS avec texte vide")])
    else if (MAX_TEXT_LENGTH <? len (text_of p))%Z
    then (Raise (HTTPException 413 detail_413),
          add_log w [(INFO, "Texte trop long: %d (> %d)")])
    else match KPipeline env with
         | None =>
             (Raise (HTTPException 503 detail_503),
              add_log w [(ERROR, "KPipeline (kokoro) non disponible: import failed")])
         | Some engine =>
             match offload env engine p (text_of p) (voice_of p) (lang_of p) out_path
                     (add_log w [requested]) with
             | (Ok v, w') => (Ok (response_for v), w')
             | (Raise e, w') => (Raise e, w')
             end
         end.
Proof.
  unfold synthesize_tts. fold (text_of p).
  destruct (bool_decide (text_of p = [])); [reflexivity|].
  destruct (MAX_TEXT_LENGTH <? len (text_of p))%Z; [reflexivity|].
  destruct (KPipeline env) as [engine|]; reflexivity.
Qed.

Variable engine : Engine.

Let run := run_pipeline_and_write env engine p (text_of p) (voice_of p) (lang_of p) out_path.
Let step4 := offload env engine p (text_of p) (voice_of p) (lang_of p) out_path.

Lemma retry_eq (w : World) :
  try_except (retry env engine p (text_of p) (voice_of p) (lang_of p) out_path)
    retry_failed w
  = match run w with
    | (Ok f, w') => (Ok (PStr f), w')
    | (Raise e, w') => retry_failed e w'
    end.
Proof.
  unfold try_except, retry, await, to_thread, job, sync_wrapper, run_until_complete, bind.
  fold run. by destruct (run w) as [[f|e] w'].
Qed.

Lemma retry_failed_eq (e : exn) (w : World) :
  exists detail entry,
    retry_failed e w = (Raise (HTTPException (retry_status e) detail), add_log w [entry]).
Proof. destruct e; cbn; eauto. Qed.

Lemma offload_eq (w : World) :
  step4 w =
    if Qle_bool (thunk_seconds env) (inject_Z PIPELINE_TIMEOUT)
    then match worker_loop env with
         | Some l => (Ok (PLoop l), w)
         | None =>
             match run (add_log w [retrying]) with
             | (Ok f, w') => (Ok (PStr f), w')
             | (Raise e, w') => retry_failed e w'
             end
         end
    else (Raise (HTTPException 504 "Génération TTS trop longue (timeout)."),
          add_log w [(ERROR, "Timeout lors de l'appel au pipeline TTS (>%d s)")]).
Proof.
  unfold step4, offload, try_except at 1. rewrite first_attempt_eq.
  destruct (Qle_bool _ _); [|reflexivity].
  destruct (worker_loop env); [reflexivity|].
  rewrite <- retry_eq. reflexivity.
Qed.

(** Step 4 changes no path but the output path. *)
Lemma offload_other (w : World) (q : string) :
  q <> path_str out_path -> fs (snd (step4 w)) !! q = fs w !! q.
Proof.
  intros Hq. rewrite offload_eq. destruct (Qle_bool _ _); [|done].
  destruct (worker_loop env); [done|].
  pose proof (run_other env engine p (text_of p) (voice_of p) (lang_of p) out_path
                (add_log w [retrying]) q Hq) as Hr.
  fold run in Hr. destruct (run _) as [[f|e] w1]; cbn [snd add_log fs] in *; [done|].
  destruct (retry_failed_eq e w1) as (d & entry & ->). done.
Qed.

(** Step 4, when it fails, leaves the scratch directory as it found it
    if nothing was at the output path. *)
Lemma offload_failed_restores (w w' : World) (e : exn) :
  step4 w = (Raise e, w') -> fs w !! path_str out_path = None -> fs w' = fs w.
Proof.
  intros E Hfree. rewrite offload_eq in E. destruct (Qle_bool _ _).
  - destruct (worker_loop env); [discriminate|].
    destruct (run _) as [[f|e1] w1] eqn:Er; [discriminate|].
    destruct (retry_failed_eq e1 w1) as (d & entry & Hrf). rewrite Hrf in E.
    injection E as _ <-. cbn [add_log fs].
    by apply (run_failed_restores env engine p (text_of p) (voice_of p) (lang_of p)
                out_path (add_log w [retrying]) w1 e1).
  - by injection E as _ <-.
Qed.

(** The calls of step 4. *)
Lemma offload_calls (w : World) :
  exists cs, calls (snd (step4 w)) = calls w ++ cs /\ request_calls env p cs.
Proof.
  rewrite offload_eq.
  destruct (Qle_bool _ _); [|exists []; rewrite app_nil_r; by split; [|left]].
  destruct (worker_loop env); [exists []; rewrite app_nil_r; by split; [|left]|].
  pose proof (run_calls env engine p (text_of p) (voice_of p) (lang_of p) out_path
                (add_log w [retrying])) as Hr.
  fold run in Hr.
  assert (calls (snd (match run (add_log w [retrying]) with
                      | (Ok f, w') => (Ok (PStr f), w')
                      | (Raise e, w') => retry_failed e w'
                      end)) = calls (snd (run (add_log w [retrying])))) as ->.
  { destruct (run _) as [[f|e] w1]; [done|].
    by destruct (retry_failed_eq e w1) as (d & entry & ->). }
  cbn [add_log calls] in Hr. destruct Hr as [Hr | (k & wr & Hr & Hwr)].
  - eexists. split; [exact Hr|]. right. by left.
  - eexists. split; [exact Hr|]. right. right. by exists k, wr.
Qed.

End HandlerOutcome.

(** ** Properties of the handler of POST /tts *)

(** X1: whatever the engine, the codec or the thread pool do, an exception
    that leaves the handler is an [HTTPException] whose status is 422, 413,
    503, 504 or 500. *)
Theorem X1_only_http_errors (env : Env) (p : TTSRequest) (w w' : World) (e : exn) :
  synthesize_tts env p w = (Raise e, w') -> http_error e.
Proof.
  intros E. rewrite synthesize_eq in E. unfold http_error.
  destruct (bool_decide _); [injection E as <- _; eauto 10|].
  destruct (_ <? _)%Z; [injection E as <- _; eauto 10|].
  destruct (KPipeline env) as [engine|]; [|injection E as <- _; eauto 10].
  rewrite offload_eq in E.
  destruct (Qle_bool _ _); [|injection E as <- _; eauto 10].
  destruct (worker_loop env); [discriminate|].
  destruct (run_pipeline_and_write _ _ _ _ _ _ _ _) as [[f|e1] w1]; [discriminate|].
  destruct (retry_failed_eq e1 w1) as (d & entry & Hrf). rewrite Hrf in E.
  injection E as <- _. exists (retry_status e1), d. split; [done|].
  destruct e1; cbn; auto.
Qed.

Lemma X1_only_http_errors_witness :
  http_error (HTTPException 500 "Erreur interne lors de la génération TTS.").
Proof.
  apply (X1_only_http_errors env_slow_failing hello (start ∅)
           (snd (synthesize_tts env_slow_failing hello (start ∅)))).
  vm_compute. reflexivity.
Defined.

(** X2: a request changes no path of the scratch directory other than its
    own output path [static/kokoro_<ts>.wav]. *)
Theorem X2_touches_only_output (env : Env) (p : TTSRequest) (w : World) (q : string) :
  q <> path_str (out_path_of env) ->
  fs (snd (synthesize_tts env p w)) !! q = fs w !! q.
Proof.
  intros Hq. rewrite synthesize_eq.
  destruct (bool_decide _); [done|]. destruct (_ <? _)%Z; [done|].
  destruct (KPipeline env) as [engine|]; [|done].
  pose proof (offload_other env p engine (add_log w [requested]) q Hq) as Ho.
  by destruct (offload _ _ _ _ _ _ _ _) as [[v|e] w1].
Qed.

Lemma X2_touches_only_output_witness :
  fs (snd (synthesize_tts env_slow hello
             (start {[ "static/kokoro_1.wav" := File Truncated ]})))
    !! "static/kokoro_1.wav"
  = Some (File Truncated).
Proof.
  rewrite (X2_touches_only_output env_slow hello
             (start {[ "static/kokoro_1.wav" := File Truncated ]})
             "static/kokoro_1.wav").
  - reflexivity.
  - vm_compute. discriminate.
Defined.

(** X3: a request that is answered with an error leaves the scratch
    directory exactly as it found it, provided nothing was at its output
    path before. *)
Theorem X3_failed_request_restores (env : Env) (p : TTSRequest) (w w' : World)
    (e : exn) :
  synthesize_tts env p w = (Raise e, w') ->
  fs w !! path_str (out_path_of env) = None ->
  fs w' = fs w.
Proof.
  intros E Hfree. rewrite synthesize_eq in E.
  destruct (bool_decide _); [by injection E as _ <-|].
  destruct (_ <? _)%Z; [by injection E as _ <-|].
  destruct (KPipeline env) as [engine|]; [|by injection E as _ <-].
  destruct (offload _ _ _ _ _ _ _ _) as [[v|e1] w1] eqn:Eo; [discriminate|].
  injection E as _ <-.
  by apply (offload_failed_restores env p engine (add_log w [requested]) w1 e1 Eo).
Qed.

Lemma X3_failed_request_restores_witness :
  fs (snd (synthesize_tts env_disk_full hello
             (start {[ "static/kokoro_1.wav" := File Truncated ]})))
  = fs (start {[ "static/kokoro_1.wav" := File Truncated ]}).
Proof.
  apply (X3_failed_request_restores env_disk_full hello
           (start {[ "static/kokoro_1.wav" := File Truncated ]})
           (snd (synthesize_tts env_disk_full hello
                   (start {[ "static/kokoro_1.wav" := File Truncated ]})))
           (HTTPException 500 "Erreur interne lors de la génération TTS.")).
  - vm_compute. reflexivity.
  - vm_compute. reflexivity.
Defined.

(** What a successful answer means, for use below. *)
Lemma handler_success (env : Env) (p : TTSRequest) (w w' : World)
    (resp : APIResponse) :
  worker_loop env = None ->
  synthesize_tts env p w = (Ok resp, w') ->
  accepted p
  /\ resp = response_for (PStr (safe_filename (time_ms env)))
  /\ exists engine a,
       KPipeline env = Some engine
       /\ most_recent (yields (gen_of engine p)) = Some (PArray a)
       /\ fs w' = <[path_str (out_path_of env) := File (Wav AUDIO_SR a)]> (fs w).
Proof.
  intros Hloop E. rewrite synthesize_eq in E. unfold accepted.
  destruct (bool_decide _) eqn:Hne; [discriminate|].
  destruct (_ <? _)%Z eqn:Hlen; [discriminate|].
  destruct (KPipeline env) as [engine|]; [|discriminate].
  rewrite offload_eq, Hloop in E.
  destruct (Qle_bool _ _); [|discriminate].
  destruct (run_pipeline_and_write _ _ _ _ _ _ _ _) as [[f|e1] w1] eqn:Er.
  2:{ destruct (retry_failed_eq e1 w1) as (d & entry & Hrf). by rewrite Hrf in E. }
  injection E as <- <-.
  destruct (run_returns _ _ _ _ _ _ _ _ _ _ Er) as (-> & _ & _ & _ & a & Hlast & Hfs).
  split; [split|split].
  - by apply bool_decide_eq_false in Hne.
  - by apply Z.ltb_ge in Hlen.
  - reflexivity.
  - exists engine, a. by repeat split.
Qed.

(** X4: in a worker thread without an event loop, a request that is
    answered with success passed both validations, its response names
    [kokoro_<ts>.wav], and the only change to the scratch directory is that
    this file now holds, at 24000 Hz, the audio of the last item with three
    fields that the engine yielded. *)
Theorem X4_success_means_written (env : Env) (p : TTSRequest) (w w' : World)
    (resp : APIResponse) :
  worker_loop env = None ->
  synthesize_tts env p w = (Ok resp, w') ->
  accepted p
  /\ resp = response_for (PStr (safe_filename (time_ms env)))
  /\ exists engine a,
       KPipeline env = Some engine
       /\ most_recent (yields (gen_of engine p)) = Some (PArray a)
       /\ fs w' = <[path_str (out_path_of env) := File (Wav AUDIO_SR a)]> (fs w).
Proof. apply handler_success. Qed.

Lemma X4_success_means_written_witness :
  fs (snd (synthesize_tts env_slow hello (start ∅)))
  = {[ "static/kokoro_1699999999123.wav" := File (Wav 24000 [1 # 2; -1 # 4]) ]}.
Proof.
  destruct (X4_success_means_written env_slow hello (start ∅)
              (snd (synthesize_tts env_slow hello (start ∅)))
              (response_for (PStr "kokoro_1699999999123.wav")))
    as (_ & _ & engine & a & Heng & Hlast & Hfs).
  - reflexivity.
  - vm_compute. reflexivity.
  - injection Heng as <-. injection Hlast as <-. exact Hfs.
Defined.

(** X5: the calls one request makes to the engine and the codec are none
    at all, or the constructor alone, or the constructor with the defaulted
    language, one pipeline call with the stripped text, the defaulted voice
    and the speed, the items in order, and at most one write, to the
    request's output path at 24000 Hz. Any call at all means the request
    passed both validations and the engine was loaded. *)
Theorem X5_calls_of_a_request (env : Env) (p : TTSRequest) (w : World) :
  exists cs,
    calls (snd (synthesize_tts env p w)) = calls w ++ cs
    /\ request_calls env p cs
    /\ (cs <> [] -> accepted p /\ is_Some (KPipeline env)).
Proof.
  rewrite synthesize_eq. unfold accepted.
  assert (forall (r : result APIResponse) (entry : level * string),
             exists cs, calls (snd (r, add_log w [entry])) = calls w ++ cs
                        /\ request_calls env p cs
                        /\ (cs <> [] ->
                            (text_of p <> [] /\ (len (text_of p) <= MAX_TEXT_LENGTH)%Z)
                            /\ is_Some (KPipeline env))) as Hnone.
  { intros r entry. exists []. cbn. rewrite app_nil_r.
    split; [done|]. split; [by left|]. intros H. by destruct H. }
  destruct (bool_decide _) eqn:Hne; [apply Hnone|].
  destruct (_ <? _)%Z eqn:Hlen; [apply Hnone|].
  destruct (KPipeline env) as [engine|]; [|apply Hnone].
  destruct (offload_calls env p engine (add_log w [requested])) as (cs & Hcs & Hshape).
  exists cs. split; [|split; [done|]].
  - by destruct (offload _ _ _ _ _ _ _ _) as [[v|e] w1].
  - intros _. split; [split|by eexists].
    + by apply bool_decide_eq_false in Hne.
    + by apply Z.ltb_ge in Hlen.
Qed.

Lemma X5_calls_of_a_request_witness :
  accepted hello /\ is_Some (KPipeline env_slow_failing).
Proof.
  destruct (X5_calls_of_a_request env_slow_failing hello (start ∅))
    as (cs & Hcs & _ & H).
  apply H. intros ->. vm_compute in Hcs. discriminate.
Defined.

(** X6: when the first offloaded thunk takes longer than the timeout, an
    accepted request is answered 504 and the engine is never called. *)
Theorem X6_late_thunk_answers_504 (env : Env) (p : TTSRequest) (w : World) :
  accepted p -> is_Some (KPipeline env) ->
  Qle_bool (thunk_seconds env) (inject_Z PIPELINE_TIMEOUT) = false ->
  rejected (synthesize_tts env p w) w 504 gateway_timeout.
Proof.
  intros [Hne Hlen] [engine Heng] Hlate. rewrite synthesize_eq.
  rewrite bool_decide_eq_false_2 by done.
  apply Z.ltb_ge in Hlen. rewrite Hlen, Heng, offload_eq, Hlate. by cbn.
Qed.

(** X7: when the first attempt fails at once and the retried synthesis
    raises [e], an accepted request is answered 504 if [e] is
    [TimeoutError] and 500 otherwise. *)
Theorem X7_status_of_failed_synthesis (env : Env) (engine : Engine) (p : TTSRequest)
    (w w1 : World) (e : exn) :
  accepted p -> KPipeline env = Some engine -> first_attempt_fails_fast env ->
  run_pipeline_and_write env engine p (text_of p) (voice_of p) (lang_of p)
    (out_path_of env) (add_log (add_log w [requested]) [retrying])
  = (Raise e, w1) ->
  exists detail entry,
    synthesize_tts env p w
    = (Raise (HTTPException (retry_status e) detail), add_log w1 [entry]).
Proof.
  intros [Hne Hlen] Heng [Hloop Hfast] Er. rewrite synthesize_eq.
  rewrite bool_decide_eq_false_2 by done.
  apply Z.ltb_ge in Hlen. rewrite Hlen, Heng, offload_eq, Hfast, Hloop, Er.
  destruct (retry_failed_eq e w1) as (d & entry & ->). by exists d, entry.
Qed.

Lemma X6_late_thunk_answers_504_witness :
  rejected (synthesize_tts env_queued hello (start ∅)) (start ∅) 504 gateway_timeout.
Proof.
  apply (X6_late_thunk_answers_504 env_queued hello (start ∅)).
  - split; vm_compute; discriminate.
  - eexists. reflexivity.
  - reflexivity.
Defined.

Lemma X7_status_of_failed_synthesis_witness :
  exists detail entry,
    synthesize_tts env_slow_failing hello (start ∅)
    = (Raise (HTTPException 500 detail),
       add_log
         (snd (run_pipeline_and_write env_slow_failing (kokoro failing) hello
                 (text_of hello) (voice_of hello) (lang_of hello)
                 (out_path_of env_slow_failing)
                 (add_log (add_log (start ∅) [requested]) [retrying])))
         [entry]).
Proof.
  apply (X7_status_of_failed_synthesis env_slow_failing (kokoro failing) hello
           (start ∅) _ (EngineError "CUDA out of memory")).
  - split; vm_compute; discriminate.
  - reflexivity.
  - split; reflexivity.
  - vm_compute. reflexivity.
Defined.

(** ** The text handed to the pipeline *)

Lemma lstrip_split (s : pystr) :
  exists pre, s = pre ++ lstrip s /\ whitespace_only pre.
Proof.
  induction s as [|c r (pre & Hr & Hpre)]; [by exists []; split; [|constructor]|].
  simpl. destruct (isspace c) eqn:Hc.
  - exists (c :: pre). split; [simpl; by rewrite <- Hr | by constructor].
  - exists []. split; [done | constructor].
Qed.

Lemma lstrip_head (s r : pystr) (c : N) : lstrip s = c :: r -> isspace c = false.
Proof.
  induction s as [|d t IH]; simpl; [done|].
  destruct (isspace d) eqn:Hd; [done|]. by intros [= <- _].
Qed.

Lemma rstrip_split (s : pystr) :
  exists post, s = rstrip s ++ post /\ whitespace_only post.
Proof.
  unfold rstrip. destruct (lstrip_split (rev s)) as (pre & Hs & Hpre).
  exists (rev pre). split; [|by apply whitespace_only_rev].
  rewrite <- rev_app_distr, <- Hs. by rewrite rev_involutive.
Qed.

Lemma rstrip_last (s r : pystr) (c : N) : rstrip s = r ++ [c] -> isspace c = false.
Proof.
  unfold rstrip. intros H. apply (f_equal (@rev N)) in H.
  rewrite rev_involutive, rev_app_distr in H. simpl in H.
  by eapply lstrip_head.
Qed.

(** Stripping on the right keeps a first character that is not whitespace. *)
Lemma rstrip_head (s r : pystr) (c : N) :
  isspace c = false -> exists r', rstrip (c :: s) = c :: r'.
Proof.
  intros Hc. unfold rstrip. simpl rev.
  assert (forall t, exists u, lstrip (t ++ [c]) = u ++ [c]) as Hend.
  { induction t as [|d t [u Hu]]; simpl.
    - rewrite Hc. by exists [].
    - destruct (isspace d); [by exists u | by exists (d :: t)]. }
  destruct (Hend (rev s)) as [u ->]. rewrite rev_app_distr. simpl. by eexists.
Qed.

(** X8: the text the handler validates and hands to the pipeline is the
    request's text without the whitespace at its two ends: the request's
    text is whitespace, then that text, then whitespace, and that text
    neither starts nor ends with a whitespace character. *)
Theorem X8_pipeline_text_is_stripped (p : TTSRequest) :
  exists pre post,
    text p = pre ++ text_of p ++ post
    /\ whitespace_only pre /\ whitespace_only post
    /\ (forall c r, text_of p = c :: r -> isspace c = false)
    /\ (forall c r, text_of p = r ++ [c] -> isspace c = false).
Proof.
  unfold text_of. rewrite str_or_nil. unfold strip.
  destruct (lstrip_split (text p)) as (pre & Hpre & Hwpre).
  destruct (rstrip_split (lstrip (text p))) as (post & Hpost & Hwpost).
  exists pre, post. split; [by rewrite <- Hpost|]. split; [done|]. split; [done|].
  split; [|intros c r; apply rstrip_last].
  intros c r Hc. destruct (lstrip (text p)) as [|d t] eqn:Hl; [discriminate|].
  pose proof (lstrip_head _ _ _ Hl) as Hd.
  destruct (rstrip_head t [] d Hd) as [r' Hr']. rewrite Hr' in Hc.
  by injection Hc as <- _.
Qed.

Lemma X8_pipeline_text_is_stripped_witness :
  isspace 72%N = false.
Proof.
  destruct (X8_pipeline_text_is_stripped
              (request_of [32; 9; 72; 105; 32; 33; 10; 32]%N))
    as (pre & post & _ & _ & _ & Hhead & _).
  apply (Hhead 72%N [105; 32; 33]%N). reflexivity.
Defined.

(** ** The endpoint GET /download and the deferred deletion *)

Lemma download_file_eq (filename : string) (tasks : list task) (w : World) :
  download_file filename tasks w =
    if bool_decide (is_Some (fs w !! path_str (path_join STATIC_DIR filename)))
    then (Ok (response_of filename, tasks ++ [task_for filename]),
          add_log w [(INFO, "Serving file %s")])
    else (Raise not_found,
          add_log w [(WARNING, "Téléchargement demandé pour fichier inexistant: %s")]).
Proof.
  unfold download_file, bind, path_exists.
  by destruct (bool_decide _).
Qed.

Lemma cleanup_file_delayed_eq (path : Path) (delay : Z) (w : World) :
  (0 <= delay)%Z ->
  cleanup_file_delayed path delay w = cleanup_file path (add_log w [planning]).
Proof.
  intros H. unfold cleanup_file_delayed, time_sleep.
  apply Z.ltb_ge in H. rewrite H. reflexivity.
Qed.


(** What the deferred deletion does to the scratch directory. *)
Lemma run_task_fs (t : task) (w : World) :
  (0 <= delay_seconds t)%Z ->
  fst (run_task t w) = Ok tt
  /\ fs (snd (run_task t w)) = remove_file (fs w) (task_path t)
  /\ calls (snd (run_task t w)) = calls w.
Proof.
  intros Hdelay. unfold run_task. rewrite cleanup_file_delayed_eq by done.
  set (w1 := add_log w _).
  assert (fs w1 = fs w /\ calls w1 = calls w) as [Hfs Hcalls] by done.
  unfold remove_file. rewrite <- Hfs, <- Hcalls.
  destruct (fs w1 !! path_str (task_path t)) as [[c|]|] eqn:H.
  - by rewrite (cleanup_file_regular _ _ c H).
  - by rewrite (cleanup_file_directory _ _ H).
  - by rewrite (cleanup_file_absent _ _ H).
Qed.

(** X9: GET /download answers 404 exactly when nothing is at the path, and
    raises nothing else; otherwise it answers with that path as audio/wav
    and appends one deferred deletion of 300 seconds. Either way it leaves
    the scratch directory and the engine alone. *)
Theorem X9_download_outcomes (filename : string) (tasks : list task) (w : World) :
  let r := download_file filename tasks w in
  (fs w !! path_str (path_join STATIC_DIR filename) = None -> fst r = Raise not_found)
  /\ (is_Some (fs w !! path_str (path_join STATIC_DIR filename)) ->
      fst r = Ok (response_of filename, tasks ++ [task_for filename])
      /\ served (response_of filename) (snd r)
         = fs w !! path_str (path_join STATIC_DIR filename))
  /\ (forall e, fst r = Raise e -> e = not_found)
  /\ fs (snd r) = fs w /\ calls (snd r) = calls w.
Proof.
  cbv zeta. rewrite download_file_eq.
  destruct (fs w !! path_str (path_join STATIC_DIR filename)) as [n|] eqn:H.
  - rewrite bool_decide_eq_true_2 by eauto. cbn [fst snd].
    split; [done|]. split; [|split; [done | by split]].
    intros _. split; [done|]. unfold served. cbn. exact H.
  - rewrite bool_decide_eq_false_2 by (by intros [? ?]). cbn [fst snd].
    split; [done|]. split; [by intros [? ?]|]. split; [|by split].
    by intros e [= <-].
Qed.

Lemma X9_download_outcomes_witness :
  fst (download_file "kokoro_1.wav" [] (start ∅)) = Raise not_found
  /\ fst (download_file "kokoro_1.wav" []
            (start {[ "static/kokoro_1.wav" := File (Wav 24000 [1 # 2]) ]}))
     = Ok (response_of "kokoro_1.wav", [task_for "kokoro_1.wav"]).
Proof.
  split.
  - destruct (X9_download_outcomes "kokoro_1.wav" [] (start ∅)) as (H & _).
    apply H. reflexivity.
  - destruct (X9_download_outcomes "kokoro_1.wav" []
                (start {[ "static/kokoro_1.wav" := File (Wav 24000 [1 # 2]) ]}))
      as (_ & H & _).
    apply H. eexists. reflexivity.
Defined.

(** X10: round trip. In a worker thread without an event loop, the file
    name of a successful response can be downloaded at once: GET /download
    with it succeeds, and the file it serves holds, at 24000 Hz, the audio
    of the last item with three fields that the engine yielded. *)
Theorem X10_post_then_get (env : Env) (p : TTSRequest) (w w1 : World)
    (resp : APIResponse) (tasks : list task) :
  worker_loop env = None ->
  synthesize_tts env p w = (Ok resp, w1) ->
  exists f engine a,
    data resp = Some {| filename := PStr f; download_url := "/download/" +:+ f |}
    /\ KPipeline env = Some engine
    /\ most_recent (yields (gen_of engine p)) = Some (PArray a)
    /\ fst (download_file f tasks w1) = Ok (response_of f, tasks ++ [task_for f])
    /\ served (response_of f) (snd (download_file f tasks w1))
       = Some (File (Wav AUDIO_SR a)).
Proof.
  intros Hloop E.
  destruct (handler_success env p w w1 resp Hloop E)
    as (_ & -> & engine & a & Heng & Hlast & Hfs).
  exists (safe_filename (time_ms env)), engine, a.
  assert (fs w1 !! path_str (path_join STATIC_DIR (safe_filename (time_ms env)))
          = Some (File (Wav AUDIO_SR a))) as Hfile.
  { rewrite Hfs. apply lookup_insert_eq. }
  repeat split; try done.
  - rewrite download_file_eq. by rewrite bool_decide_eq_true_2 by eauto.
  - rewrite download_file_eq. rewrite bool_decide_eq_true_2 by eauto.
    unfold served. cbn [snd add_log fs response_of response_path]. exact Hfile.
Qed.

Lemma X10_post_then_get_witness :
  exists f engine a,
    data (response_for (PStr "kokoro_1699999999123.wav"))
    = Some {| filename := PStr f; download_url := "/download/" +:+ f |}
    /\ KPipeline env_slow = Some engine
    /\ most_recent (yields (gen_of engine hello)) = Some (PArray a)
    /\ fst (download_file f [] (snd (synthesize_tts env_slow hello (start ∅))))
       = Ok (response_of f, [] ++ [task_for f])
    /\ served (response_of f)
         (snd (download_file f [] (snd (synthesize_tts env_slow hello (start ∅)))))
       = Some (File (Wav AUDIO_SR a)).
Proof.
  apply (X10_post_then_get env_slow hello (start ∅)
           (snd (synthesize_tts env_slow hello (start ∅)))
           (response_for (PStr "kokoro_1699999999123.wav")) []).
  - reflexivity.
  - vm_compute. reflexivity.
Defined.


(** X11: deferred deletion. A download of a regular file leaves it in
    place and schedules its deletion; once the scheduled task has run, the
    file is gone, nothing else has changed, and a further download of the
    same name is answered 404. *)
Theorem X11_deferred_deletion (filename : string) (tasks : list task) (w : World)
    (c : content) :
  let path := path_str (path_join STATIC_DIR filename) in
  let d := download_file filename tasks w in
  let after := run_task (task_for filename) (snd d) in
  fs w !! path = Some (File c) ->
  fst d = Ok (response_of filename, tasks ++ [task_for filename])
  /\ served (response_of filename) (snd d) = Some (File c)
  /\ fst after = Ok tt
  /\ fs (snd after) = delete path (fs w)
  /\ (forall tasks', fst (download_file filename tasks' (snd after)) = Raise not_found).
Proof.
  intros path d after H. subst d after.
  rewrite download_file_eq. fold path. rewrite bool_decide_eq_true_2 by eauto.
  cbn [fst snd]. split; [done|]. split; [exact H|].
  destruct (run_task_fs (task_for filename)
              (add_log w [(INFO, "Serving file %s")])) as (Hok & Hfs & _);
    [by cbn|].
  split; [exact Hok|].
  assert (fs (snd (run_task (task_for filename)
                     (add_log w [(INFO, "Serving file %s")]))) = delete path (fs w))
    as Hgone.
  { rewrite Hfs. unfold remove_file. cbn [add_log fs task_for task_path].
    fold path. by rewrite H. }
  split; [exact Hgone|].
  intros tasks'. rewrite download_file_eq. fold path. rewrite Hgone.
  rewrite bool_decide_eq_false_2; [done|].
  rewrite lookup_delete_eq. by intros [? ?].
Qed.

Lemma X11_deferred_deletion_witness :
  fs (snd (run_task (task_for "kokoro_1.wav")
             (snd (download_file "kokoro_1.wav" []
                     (start {[ "static/kokoro_1.wav" := File (Wav 24000 [1 # 2]) ]})))))
  = delete "static/kokoro_1.wav"
      (fs (start {[ "static/kokoro_1.wav" := File (Wav 24000 [1 # 2]) ]})).
Proof.
  apply (X11_deferred_deletion "kokoro_1.wav" []
           (start {[ "static/kokoro_1.wav" := File (Wav 24000 [1 # 2]) ]})
           (Wav 24000 [1 # 2])).
  reflexivity.
Defined.

(** ** File names *)

Lemma length_append (a b : string) :
  String.length (a +:+ b) = (String.length a + String.length b)%nat.
Proof. induction a as [|c a IH]; simpl; [done | by rewrite IH]. Qed.

Lemma append_cancel_r (a b t : string) : a +:+ t = b +:+ t -> a = b.
Proof.
  revert b. induction a as [|c a IH]; intros [|d b] H.
  - done.
  - apply (f_equal String.length) in H.
    change (String d b +:+ t) with (String d (b +:+ t)) in H.
    cbn [String.length String.append] in H. rewrite !length_append in H.
    cbn [String.length] in H. lia.
  - apply (f_equal String.length) in H.
    change (String c a +:+ t) with (String c (a +:+ t)) in H.
    cbn [String.length String.append] in H. rewrite !length_append in H.
    cbn [String.length] in H. lia.
  - change (String c (a +:+ t) = String d (b +:+ t)) in H.
    injection H as -> H. f_equal. by apply IH.
Qed.

Lemma str_int_inj (n m : Z) : str_int n = str_int m -> n = m.
Proof.
  unfold str_int. intros H. apply DecimalZ.to_int_inj.
  assert (forall z, NilZero.int_of_string (NilZero.string_of_int (Z.to_int z))
                    = Some (Z.to_int z)) as Hround.
  { intros z. apply NilZero.isi; destruct z as [|q|q]; simpl; try discriminate;
      intros [= E]; by apply (DecimalPos.Unsigned.to_uint_nonnil q). }
  pose proof (Hround n) as Hn. rewrite H, Hround in Hn. by injection Hn.
Qed.

(** X13: two requests get the same file name only when their millisecond
    timestamps are equal; the name is the same for equal timestamps, so
    requests stamped in the same millisecond share one output path. *)
Theorem X13_safe_filename_injective (ts1 ts2 : Z) :
  safe_filename ts1 = safe_filename ts2 <-> ts1 = ts2.
Proof.
  split; [|by intros ->].
  unfold safe_filename. intros H. simpl in H.
  injection H as H. change ("" +:+ ?x) with x in H.
  apply (append_cancel_r (str_int ts1) (str_int ts2) ".wav") in H.
  by apply str_int_inj.
Qed.

Lemma X13_safe_filename_injective_witness : (1699999999123 = 1699999999123)%Z.
Proof.
  apply (proj1 (X13_safe_filename_injective 1699999999123 1699999999123)).
  reflexivity.
Defined.

(** ** Constructor failures and the statuses of validation *)

(** X15: a failure of the engine's constructor, whatever the exception,
    [TimeoutError] included, is answered 500 by an accepted request whose
    first attempt fails at once; the pipeline is never called and the
    scratch directory is left as it was. *)
Theorem X15_constructor_failure_is_500 (env : Env) (engine : Engine) (p : TTSRequest)
    (w : World) (e0 : exn) :
  accepted p -> KPipeline env = Some engine -> first_attempt_fails_fast env ->
  engine_init engine (lang_of p) = Some e0 ->
  fst (synthesize_tts env p w)
  = Raise (HTTPException 500 "Erreur interne lors de la génération TTS.")
  /\ calls (snd (synthesize_tts env p w)) = calls w ++ [CInit (lang_of p)]
  /\ fs (snd (synthesize_tts env p w)) = fs w.
Proof.
  intros [Hne Hlen] Heng [Hloop Hfast] Hinit. rewrite synthesize_eq.
  rewrite bool_decide_eq_false_2 by done.
  apply Z.ltb_ge in Hlen. rewrite Hlen, Heng, offload_eq, Hfast, Hloop.
  rewrite (run_init_failed _ _ _ _ _ _ _ _ e0) by done. by cbn.
Qed.

(** X16: the statuses of validation are answered for their own reason
    only: 422 exactly when the text is empty or whitespace-only, 413
    exactly when the stripped text is longer than 3000 characters, and 503
    exactly when the request is accepted and the engine is not loaded. *)
Theorem X16_validation_statuses (env : Env) (p : TTSRequest) (w : World) :
  let r := fst (synthesize_tts env p w) in
  ((exists d, r = Raise (HTTPException 422 d)) <-> whitespace_only (text p))
  /\ ((exists d, r = Raise (HTTPException 413 d))
      <-> (MAX_TEXT_LENGTH < len (text_of p))%Z)
  /\ ((exists d, r = Raise (HTTPException 503 d))
      <-> accepted p /\ KPipeline env = None).
Proof.
  cbv zeta. unfold accepted.
  assert (text_of p = [] <-> whitespace_only (text p)) as Hblank.
  { unfold text_of. rewrite str_or_nil. apply strip_nil_iff. }
  rewrite <- Hblank. rewrite synthesize_eq.
  destruct (bool_decide (text_of p = [])) eqn:Hne.
  { apply bool_decide_eq_true in Hne. cbn [fst]. split; [|split].
    - split; [done | by eexists].
    - split; [intros [d Hd]; discriminate Hd|].
      rewrite Hne. unfold MAX_TEXT_LENGTH, len. simpl. lia.
    - split; [intros [d Hd]; discriminate Hd | by intros [[? _] _]]. }
  apply bool_decide_eq_false in Hne.
  destruct (MAX_TEXT_LENGTH <? len (text_of p))%Z eqn:Hlen.
  { apply Z.ltb_lt in Hlen. cbn [fst]. split; [|split].
    - split; [intros [d Hd]; discriminate Hd | done].
    - split; [done | by eexists].
    - split; [intros [d Hd]; discriminate Hd | intros [[_ ?] _]; lia]. }
  apply Z.ltb_ge in Hlen.
  destruct (KPipeline env) as [engine|] eqn:Heng.
  2:{ cbn [fst]. split; [|split].
      - split; [intros [d Hd]; discriminate Hd | done].
      - split; [intros [d Hd]; discriminate Hd | lia].
      - split; [done | by eexists]. }
  assert (forall d code, (code = 422 \/ code = 413 \/ code = 503)%Z ->
             fst (match offload env engine p (text_of p) (voice_of p) (lang_of p)
                          (out_path_of env) (add_log w [requested]) with
                  | (Ok v, w') => (Ok (response_for v), w')
                  | (Raise e, w') => (Raise e, w')
                  end) <> Raise (HTTPException code d)) as Hoff.
  { intros d code Hcode. rewrite offload_eq.
    destruct (Qle_bool _ _); [|cbn [fst]; intros [= <- _]; lia].
    destruct (worker_loop env); [done|].
    destruct (run_pipeline_and_write _ _ _ _ _ _ _ _) as [[f|e1] w1]; [done|].
    destruct (retry_failed_eq e1 w1) as (d' & entry & ->). cbn [fst].
    intros [= Hc _]. destruct e1; cbn in Hc; lia. }
  split; [|split].
  - split; [|done]. intros [d Hd]. exfalso. apply (Hoff d 422%Z); [by left | exact Hd].
  - split; [|lia]. intros [d Hd]. exfalso.
    apply (Hoff d 413%Z); [by right; left | exact Hd].
  - split; [|by intros [_ ?]]. intros [d Hd]. exfalso.
    apply (Hoff d 503%Z); [by right; right | exact Hd].
Qed.

Lemma X15_constructor_failure_is_500_witness :
  fst (synthesize_tts (env_of (Some broken) 2) hello (start ∅))
  = Raise (HTTPException 500 "Erreur interne lors de la génération TTS.")
  /\ calls (snd (synthesize_tts (env_of (Some broken) 2) hello (start ∅)))
     = calls (start ∅) ++ [CInit (lang_of hello)]
  /\ fs (snd (synthesize_tts (env_of (Some broken) 2) hello (start ∅)))
     = fs (start ∅).
Proof.
  apply (X15_constructor_failure_is_500 (env_of (Some broken) 2) broken hello
           (start ∅) TimeoutError).
  - split; vm_compute; discriminate.
  - reflexivity.
  - split; reflexivity.
  - reflexivity.
Defined.

Lemma X16_validation_statuses_witness :
  whitespace_only (text (request_of [32; 9]%N))
  /\ accepted hello /\ KPipeline (env_of None 0) = None.
Proof.
  split.
  - destruct (X16_validation_statuses env_slow (request_of [32; 9]%N) (start ∅))
      as (H & _).
    apply (proj1 H). eexists. vm_compute. reflexivity.
  - destruct (X16_validation_statuses (env_of None 0) hello (start ∅))
      as (_ & _ & H).
    apply (proj1 H). eexists. vm_compute. reflexivity.
Defined.

(** ** The sequence of items, as the code treats it *)

Lemma buffers_produced (items : list item) :
  buffers items
  = omap (fun v => match v with PArray a => Some a | _ => None end) (produced items).
Proof.
  unfold buffers, produced, omap. induction items as [|it rest IH]; [done|].
  destruct it as [|[|g [|p [|v [|x r]]]]]; simpl; try exact IH;
    destruct v; simpl; try exact IH; by f_equal.
Qed.

(** When the audio field retained at the end is an array, that array is
    the most recent audio buffer of the sequence. *)
Lemma most_recent_last_buffer (items : list item) (a : ndarray) :
  most_recent items = Some (PArray a) -> last_buffer items = Some a.
Proof.
  unfold most_recent, last_buffer. rewrite buffers_produced.
  intros H. apply last_Some in H as [l ->].
  rewrite omap_app. cbn. apply last_snoc.
Qed.

(** The write of the retained value and what follows it in the second
    [try] block, under that block's handler. *)
Lemma write_attempt (env : Env) (out_path : Path) (d : pyval) (w : World) :
  let r := try_except
             (write_wav_file env out_path d AUDIO_SR ;;;
              logger INFO "Fichier audio généré: %s" ;;;
              ret (name out_path))
             (generate_failed out_path) w in
  calls (snd r) = calls w ++ [CWrite (path_str out_path) AUDIO_SR]
  /\ (forall a, d = PArray a -> codec_fault env = None ->
      fs w !! path_str out_path <> Some Dir ->
      fst r = Ok (name out_path)
      /\ fs (snd r) = <[path_str out_path := File (Wav AUDIO_SR a)]> (fs w)).
Proof.
  cbv zeta. unfold try_except, write_wav_file, sf_write. unfold bind.
  rewrite record_call_eq. cbn [fs add_calls].
  destruct (fs w !! path_str out_path) as [[c|]|] eqn:Hout;
    destruct (codec_fault env) as [[e [|]]|] eqn:Hcodec;
    try destruct d;
    rewrite ?generate_failed_eq; cbn [fst snd fs calls logger ret];
    (split; [done|]); intros a' Hd Hc Hdir; try discriminate; try done;
    injection Hd as <-; done.
Qed.

(** A synthesis call that fails after the engine context was created
    leaves no regular file at its output path. *)
Lemma run_failed_no_file (env : Env) (engine : Engine) (payload : TTSRequest)
    (txt : pystr) (voice_name lang_code : string) (out_path : Path) (w w' : World)
    (e : exn) :
  engine_init engine lang_code = None ->
  run_pipeline_and_write env engine payload txt voice_name lang_code out_path w
  = (Raise e, w') ->
  no_file (fs w') out_path.
Proof.
  intros Hinit E. rewrite run_init_ok in E by done. unfold try_except in E.
  destruct (generate _ _ _ _ _ _ _ _) as [[f|e1] w1]; [discriminate|].
  rewrite generate_failed_eq in E. injection E as _ <-. cbn [fs].
  apply remove_file_no_file.
Qed.

(** C6, as stated, fails. The sequence [none_after_audio] ends normally and
    produces an audio buffer, yet the call raises the no-audio error and
    writes nothing: the later item's [None] has replaced the buffer. On
    [four_values] the loop stops at the second of three items. *)
Lemma C6_later_none_discards_buffer :
  fault none_after_audio = None
  /\ last_buffer (yields none_after_audio) = Some [1 # 2]
  /\ run_pipeline_and_write (env_of None 2) (kokoro none_after_audio) hello
       (text hello) DEFAULT_VOICE DEFAULT_LANG out_example (start ∅)
     = (Raise no_audio,
        {| fs := ∅;
           log := [(ERROR, "Pipeline n'a retourné aucun audio.");
                   (ERROR, "Erreur pendant génération TTS: %s")];
           calls := [CInit DEFAULT_LANG;
                     CPipeline (text hello) DEFAULT_VOICE (speed hello);
                     CNext 0; CNext 1] |})
  /\ length (yields four_values) = 3%nat
  /\ calls (snd (run_pipeline_and_write (env_of None 2) (kokoro four_values) hello
                   (text hello) DEFAULT_VOICE DEFAULT_LANG out_example (start ∅)))
     = [CInit DEFAULT_LANG; CPipeline (text hello) DEFAULT_VOICE (speed hello);
        CNext 0; CNext 1]
  /\ fst (run_pipeline_and_write (env_of None 2) (kokoro four_values) hello
            (text hello) DEFAULT_VOICE DEFAULT_LANG out_example (start ∅))
     = Raise (ValueError "too many values to unpack (expected 3)").
Proof. repeat split; vm_compute; reflexivity. Qed.

(** C6, amended: for every sequence that ends normally and in which no
    item has more than three values, the adapter asks for every item of
    the sequence in order, skips those that miss fields, and retains the
    audio field of the most recent item that has its three fields. When
    that field is an audio buffer, the codec is called once with it and,
    the codec succeeding, the file holds that buffer at 24000 Hz. When that
    field is [None], or no item has its three fields, the call raises the
    no-audio error and the codec is not called. Any other retained value
    is handed to the codec as it is. *)
Theorem C6_last_audio_field_retained (env : Env) (engine : Engine)
    (payload : TTSRequest) (txt : pystr) (voice_name lang_code : string)
    (out_path : Path) (w : World) :
  let gen := engine_call engine lang_code txt voice_name (speed payload) in
  let r := run_pipeline_and_write env engine payload txt voice_name lang_code out_path w in
  engine_init engine lang_code = None ->
  fault gen = None ->
  Forall expected (yields gen) ->
  exists wr,
    calls (snd r) = calls w ++ calls_of_run engine payload txt voice_name lang_code ++ wr
    /\ match most_recent (yields gen) with
       | Some (PArray a) =>
           wr = [CWrite (path_str out_path) AUDIO_SR]
           /\ (codec_fault env = None -> fs w !! path_str out_path <> Some Dir ->
               fst r = Ok (name out_path)
               /\ fs (snd r) = <[path_str out_path := File (Wav AUDIO_SR a)]> (fs w))
       | Some PNone | None =>
           wr = [] /\ fst r = Raise no_audio
           /\ fs (snd r) = remove_file (fs w) out_path
       | Some _ => wr = [CWrite (path_str out_path) AUDIO_SR]
       end.
Proof.
  intros gen r Hinit Hend Hitems. subst r.
  rewrite run_init_ok by done.
  set (w1 := add_calls (add_calls w [CInit lang_code])
               (CPipeline txt voice_name (speed payload)
                :: map CNext (seq 0 (length (yields gen))))).
  assert (calls w1 = calls w ++ calls_of_run engine payload txt voice_name lang_code)
    as Hcalls.
  { unfold w1, calls_of_run. fold gen. cbn [add_calls calls app].
    by rewrite <- app_assoc. }
  assert (fs w1 = fs w) as Hfs by done.
  assert (forall d, d <> PNone ->
             default PNone (most_recent (yields gen)) = d ->
             try_except
               (generate env engine payload txt voice_name lang_code out_path)
               (generate_failed out_path) (add_calls w [CInit lang_code])
             = try_except
                 (write_wav_file env out_path d AUDIO_SR ;;;
                  logger INFO "Fichier audio généré: %s" ;;;
                  ret (name out_path))
                 (generate_failed out_path) w1) as Hwrite.
  { intros d Hd Hlast. unfold try_except at 1. rewrite generate_expected by done.
    fold gen. rewrite Hlast. cbv zeta. fold w1. unfold try_except. by destruct d. }
  assert (default PNone (most_recent (yields gen)) = PNone ->
          try_except
            (generate env engine payload txt voice_name lang_code out_path)
            (generate_failed out_path) (add_calls w [CInit lang_code])
          = (Raise no_audio,
             {| fs := remove_file (fs w) out_path;
                log := log w1 ++ [(ERROR, "Pipeline n'a retourné aucun audio.");
                                  (ERROR, "Erreur pendant génération TTS: %s")];
                calls := calls w1 |})) as Hnone.
  { intros Hlast. unfold try_except. rewrite generate_expected by done.
    fold gen. rewrite Hlast. cbv beta iota zeta. fold w1. rewrite generate_failed_eq.
    cbn [add_log fs log calls]. rewrite Hfs. by rewrite <- app_assoc. }
  destruct (most_recent (yields gen)) as [[|s|a|lo]|] eqn:Hlast;
    cbn [default from_option id] in Hwrite, Hnone.
  - exists []. rewrite Hnone by done. cbn [fst snd fs calls].
    by rewrite app_nil_r.
  - exists [CWrite (path_str out_path) AUDIO_SR]. rewrite (Hwrite (PStr s)) by done.
    destruct (write_attempt env out_path (PStr s) w1) as [Hc _].
    cbv zeta in Hc. rewrite Hc, Hcalls. by rewrite <- app_assoc.
  - exists [CWrite (path_str out_path) AUDIO_SR]. rewrite (Hwrite (PArray a)) by done.
    destruct (write_attempt env out_path (PArray a) w1) as [Hc Hok].
    cbv zeta in Hc, Hok. rewrite Hc, Hcalls. split; [by rewrite <- app_assoc|].
    split; [done|]. intros Hcodec Hdir. rewrite <- Hfs.
    apply (Hok a); [done | done | by rewrite Hfs].
  - exists [CWrite (path_str out_path) AUDIO_SR]. rewrite (Hwrite (PLoop lo)) by done.
    destruct (write_attempt env out_path (PLoop lo) w1) as [Hc _].
    cbv zeta in Hc. rewrite Hc, Hcalls. by rewrite <- app_assoc.
  - exists []. rewrite Hnone by done. cbn [fst snd fs calls].
    by rewrite app_nil_r.
Qed.

Lemma C6_last_audio_field_retained_witness :
  exists wr,
    calls (snd (run_pipeline_and_write (env_of None 2) (kokoro mixed_items) hello
                  (text hello) DEFAULT_VOICE DEFAULT_LANG out_example (start ∅)))
    = calls (start ∅)
      ++ calls_of_run (kokoro mixed_items) hello (text hello) DEFAULT_VOICE DEFAULT_LANG
      ++ wr
    /\ wr = [CWrite (path_str out_example) AUDIO_SR]
    /\ fst (run_pipeline_and_write (env_of None 2) (kokoro mixed_items) hello
              (text hello) DEFAULT_VOICE DEFAULT_LANG out_example (start ∅))
       = Ok (name out_example)
    /\ fs (snd (run_pipeline_and_write (env_of None 2) (kokoro mixed_items) hello
                  (text hello) DEFAULT_VOICE DEFAULT_LANG out_example (start ∅)))
       = <[path_str out_example := File (Wav AUDIO_SR [1 # 4; 1 # 8])]> (fs (start ∅)).
Proof.
  destruct (C6_last_audio_field_retained (env_of None 2) (kokoro mixed_items) hello
              (text hello) DEFAULT_VOICE DEFAULT_LANG out_example (start ∅))
    as (wr & Hcalls & Hcase).
  - reflexivity.
  - reflexivity.
  - cbn. repeat (apply List.Forall_cons;
                 [first [left; exact I | left; cbn; lia | right; eexists; reflexivity]|]).
    apply List.Forall_nil.
  - exists wr. split; [exact Hcalls|].
    change (most_recent (yields (engine_call (kokoro mixed_items) DEFAULT_LANG
                                   (text hello) DEFAULT_VOICE (speed hello))))
      with (Some (PArray [1 # 4; 1 # 8])) in Hcase.
    destruct Hcase as [Hwr Hok]. split; [exact Hwr|].
    apply Hok; [reflexivity | discriminate].
Defined.

(** C7, as stated, fails. The sequence [not_a_buffer] ends normally and
    produces no audio buffer, yet the call does not raise the no-audio
    error: the value in the audio field is handed to the codec, whose
    failure is what the call raises. *)
Lemma C7_non_buffer_reaches_codec :
  fault not_a_buffer = None
  /\ last_buffer (yields not_a_buffer) = None
  /\ fst (run_pipeline_and_write (env_of None 2) (kokoro not_a_buffer) hello
            (text hello) DEFAULT_VOICE DEFAULT_LANG out_example (start ∅))
     <> Raise no_audio
  /\ calls (snd (run_pipeline_and_write (env_of None 2) (kokoro not_a_buffer) hello
                   (text hello) DEFAULT_VOICE DEFAULT_LANG out_example (start ∅)))
     = [CInit DEFAULT_LANG; CPipeline (text hello) DEFAULT_VOICE (speed hello);
        CNext 0; CWrite (path_str out_example) AUDIO_SR].
Proof.
  split; [reflexivity|]. split; [reflexivity|]. split.
  - vm_compute. discriminate.
  - vm_compute. reflexivity.
Qed.

(** C7, amended: if the engine context was created and the sequence
    produces zero valid audio buffers, the synthesis call fails and no
    regular file is left at the request's output path. The failure is the
    no-audio error, with the codec never called, when the sequence ends
    normally, no item has more than three values, and the audio field of
    the last item with three fields, if there is one, is [None]. *)
Theorem C7_no_buffer_no_file (env : Env) (engine : Engine) (payload : TTSRequest)
    (txt : pystr) (voice_name lang_code : string) (out_path : Path) (w : World) :
  let gen := engine_call engine lang_code txt voice_name (speed payload) in
  let r := run_pipeline_and_write env engine payload txt voice_name lang_code out_path w in
  engine_init engine lang_code = None ->
  last_buffer (yields gen) = None ->
  (exists e, fst r = Raise e)
  /\ no_file (fs (snd r)) out_path
  /\ (fault gen = None -> Forall expected (yields gen) ->
      most_recent (yields gen) = None \/ most_recent (yields gen) = Some PNone ->
      fst r = Raise no_audio
      /\ fs (snd r) = remove_file (fs w) out_path
      /\ calls (snd r) = calls w ++ calls_of_run engine payload txt voice_name lang_code).
Proof.
  intros gen r Hinit Hnone.
  assert (exists e, fst r = Raise e) as [e He].
  { subst r. destruct (run_pipeline_and_write _ _ _ _ _ _ _ w) as [[f|e] w'] eqn:Er;
      [|by exists e].
    destruct (run_returns _ _ _ _ _ _ _ _ _ _ Er) as (_ & _ & _ & _ & a & Hlast & _).
    apply most_recent_last_buffer in Hlast. fold gen in Hlast. congruence. }
  split; [by exists e|]. split.
  - subst r. destruct (run_pipeline_and_write _ _ _ _ _ _ _ w) as [r0 w'] eqn:Er.
    cbn [fst snd] in *. subst r0. by eapply run_failed_no_file.
  - intros Hend Hitems Hlast. subst r.
    rewrite run_init_ok by done. unfold try_except.
    rewrite generate_expected by done. fold gen.
    assert (default PNone (most_recent (yields gen)) = PNone) as ->
      by (by destruct Hlast as [-> | ->]).
    cbv beta iota zeta. rewrite generate_failed_eq.
    cbn [fst snd fs calls add_log]. rewrite add_calls_app.
    cbn [fs calls add_calls app]. unfold calls_of_run. fold gen. by cbn [app].
Qed.

Lemma C7_no_buffer_no_file_witness :
  fst (run_pipeline_and_write (env_of None 2) (kokoro only_malformed) hello
         (text hello) DEFAULT_VOICE DEFAULT_LANG out_example (start ∅))
  = Raise no_audio
  /\ no_file (fs (snd (run_pipeline_and_write (env_of None 2) (kokoro not_a_buffer)
                        hello (text hello) DEFAULT_VOICE DEFAULT_LANG out_example
                        (start ∅))))
       out_example.
Proof.
  split.
  - destruct (C7_no_buffer_no_file (env_of None 2) (kokoro only_malformed) hello
                (text hello) DEFAULT_VOICE DEFAULT_LANG out_example (start ∅))
      as (_ & _ & H); [reflexivity | reflexivity |].
    apply H; [reflexivity | | by left].
    cbn. repeat (apply List.Forall_cons; [first [left; exact I | left; cbn; lia]|]).
    apply List.Forall_nil.
  - destruct (C7_no_buffer_no_file (env_of None 2) (kokoro not_a_buffer) hello
                (text hello) DEFAULT_VOICE DEFAULT_LANG out_example (start ∅))
      as (_ & H & _); [reflexivity | reflexivity | exact H].
Defined.

(** ** The deferred deletion, for every delay *)


